(** * GPIRS shortage report converter: the text-to-record parser of [app.py]

    A shallow embedding of the parsing core of [app.py] (tokenizer, metadata
    extraction, marker locator, two-line scan, record set assembly and the
    decoding loop of the main flow), followed by the properties of its
    specification.

    Conventions.
    - A Python [str] is a list of Unicode code points ([N]); source literals
      are written with [lit].
    - Python integers are [Z]; [len] is the length as a [Z].
    - Operations that can raise return a [result]; a [while] loop is run on
      fuel and reports [OutOfFuel] when the fuel is exhausted.
    - The character tables ([str.isspace], [str.isdigit], the regular
      expression classes) are those of CPython 3.11 (Unicode 14.0). *)

From Stdlib Require Import List String Ascii Bool NArith ZArith QArith Lia.
From Stdlib Require Strings.Byte.
Import ListNotations.

Local Open Scope Z_scope.

(** ** Exceptions and results *)

Inductive exn : Type :=
| IndexError
| ValueError
| KeyError
| NameError.

Inductive result (A : Type) : Type :=
| Ok (a : A)
| Raise (e : exn)
| OutOfFuel.

Arguments Ok {A} a.
Arguments Raise {A} e.
Arguments OutOfFuel {A}.

Definition bind {A B : Type} (r : result A) (k : A -> result B) : result B :=
  match r with
  | Ok a => k a
  | Raise e => Raise e
  | OutOfFuel => OutOfFuel
  end.

Notation "x <- e ;; k" := (bind e (fun x => k))
  (at level 61, e at next level, right associativity).
Notation "' p <- e ;; k" := (bind e (fun p => k))
  (at level 61, p pattern, e at next level, right associativity).

(** ** Python strings and lists *)

Module Py.

Definition str : Type := list N.

(** A source literal (ASCII) as a [str]. *)
Definition lit (s : string) : str := map N_of_ascii (list_ascii_of_string s).

Fixpoint str_eqb (a b : str) : bool :=
  match a, b with
  | [], [] => true
  | x :: a', y :: b' => (x =? y)%N && str_eqb a' b'
  | _, _ => false
  end.

Definition len {A : Type} (l : list A) : Z := Z.of_nat (List.length l).

(** Truth value of a sequence: non-empty. *)
Definition truthy {A : Type} (l : list A) : bool :=
  match l with [] => false | _ :: _ => true end.

Fixpoint in_ranges (c : N) (t : list (N * N)) : bool :=
  match t with
  | [] => false
  | (lo, hi) :: t' => ((lo <=? c)%N && (c <=? hi)%N) || in_ranges c t'
  end.

(** [str.isspace] on one character; also the class [\s] of [re]. *)
Definition space_table : list (N * N) :=
  [(9, 13); (28, 32); (133, 133); (160, 160); (5760, 5760); (8192, 8202);
   (8232, 8233); (8239, 8239); (8287, 8287); (12288, 12288)]%N.

Definition isspace_cp (c : N) : bool := in_ranges c space_table.

(** Characters on which [str.isdigit] holds (Numeric_Type Decimal or Digit). *)
Definition digit_table : list (N * N) :=
  [(48,57); (178,179); (185,185); (1632,1641); (1776,1785); (1984,1993);
   (2406,2415); (2534,2543); (2662,2671); (2790,2799); (2918,2927);
   (3046,3055); (3174,3183); (3302,3311); (3430,3439); (3558,3567);
   (3664,3673); (3792,3801); (3872,3881); (4160,4169); (4240,4249);
   (4969,4977); (6112,6121); (6160,6169); (6470,6479); (6608,6618);
   (6784,6793); (6800,6809); (6992,7001); (7088,7097); (7232,7241);
   (7248,7257); (8304,8304); (8308,8313); (8320,8329); (9312,9320);
   (9332,9340); (9352,9360); (9450,9450); (9461,9469); (9471,9471);
   (10102,10110); (10112,10120); (10122,10130); (42528,42537);
   (43216,43225); (43264,43273); (43472,43481); (43504,43513);
   (43600,43609); (44016,44025); (65296,65305); (66720,66729);
   (68160,68163); (68912,68921); (69216,69224); (69714,69722);
   (69734,69743); (69872,69881); (69942,69951); (70096,70105);
   (70384,70393); (70736,70745); (70864,70873); (71248,71257);
   (71360,71369); (71472,71481); (71904,71913); (72016,72025);
   (72784,72793); (73040,73049); (73120,73129); (92768,92777);
   (92864,92873); (93008,93017); (120782,120831); (123200,123209);
   (123632,123641); (125264,125273); (127232,127242); (130032,130041)]%N.

Definition isdigit_cp (c : N) : bool := in_ranges c digit_table.

(** [s.isdigit()]: at least one character, all of them digits. *)
Definition isdigit (s : str) : bool := truthy s && forallb isdigit_cp s.

(** Decimal digits (category Nd): the class [\d] of [re], read by [int].
    Every range starts at a digit zero, so the value is the offset modulo
    ten. *)
Definition decimal_table : list (N * N) :=
  [(48,57); (1632,1641); (1776,1785); (1984,1993); (2406,2415); (2534,2543);
   (2662,2671); (2790,2799); (2918,2927); (3046,3055); (3174,3183);
   (3302,3311); (3430,3439); (3558,3567); (3664,3673); (3792,3801);
   (3872,3881); (4160,4169); (4240,4249); (6112,6121); (6160,6169);
   (6470,6479); (6608,6617); (6784,6793); (6800,6809); (6992,7001);
   (7088,7097); (7232,7241); (7248,7257); (42528,42537); (43216,43225);
   (43264,43273); (43472,43481); (43504,43513); (43600,43609);
   (44016,44025); (65296,65305); (66720,66729); (68912,68921);
   (69734,69743); (69872,69881); (69942,69951); (70096,70105);
   (70384,70393); (70736,70745); (70864,70873); (71248,71257);
   (71360,71369); (71472,71481); (71904,71913); (72016,72025);
   (72784,72793); (73040,73049); (73120,73129); (92768,92777);
   (92864,92873); (93008,93017); (120782,120831); (123200,123209);
   (123632,123641); (125264,125273); (130032,130041)]%N.

Fixpoint decimal_value_in (c : N) (t : list (N * N)) : option N :=
  match t with
  | [] => None
  | (lo, hi) :: t' =>
      if ((lo <=? c)%N && (c <=? hi)%N)%bool then Some (((c - lo) mod 10)%N)
      else decimal_value_in c t'
  end.

Definition decimal_value (c : N) : option N := decimal_value_in c decimal_table.

(** Line boundaries of [str.splitlines]. *)
Definition is_linebreak (c : N) : bool :=
  existsb (N.eqb c) [10; 11; 12; 13; 28; 29; 30; 133; 8232; 8233]%N.

Fixpoint dropwhile {A : Type} (p : A -> bool) (l : list A) : list A :=
  match l with
  | [] => []
  | x :: l' => if p x then dropwhile p l' else l
  end.

Definition lstrip (s : str) : str := dropwhile isspace_cp s.
Definition rstrip (s : str) : str := rev (dropwhile isspace_cp (rev s)).

(** [s.strip()] *)
Definition strip (s : str) : str := rstrip (lstrip s).

(** [s.split()]: the maximal runs of non-space characters; [cur] is the run
    being read, reversed. *)
Fixpoint split_from (s : str) (cur : str) : list str :=
  match s with
  | [] => match cur with [] => [] | _ => [rev cur] end
  | c :: s' =>
      if isspace_cp c then
        match cur with
        | [] => split_from s' []
        | _ => rev cur :: split_from s' []
        end
      else split_from s' (c :: cur)
  end.

Definition split (s : str) : list str := split_from s [].

(** [s.splitlines()]: [\r\n] is one boundary; no empty last line. *)
Fixpoint splitlines_from (s : str) (cur : str) : list str :=
  match s with
  | [] => match cur with [] => [] | _ => [rev cur] end
  | c :: s' =>
      if is_linebreak c then
        match s' with
        | c' :: s'' =>
            if ((c =? 13)%N && (c' =? 10)%N)%bool
            then rev cur :: splitlines_from s'' []
            else rev cur :: splitlines_from s' []
        | [] => rev cur :: splitlines_from s' []
        end
      else splitlines_from s' (c :: cur)
  end.

Definition splitlines (s : str) : list str := splitlines_from s [].

(** [s.replace(old, new)] for a one-character [old]. *)
Definition replace_cp (old : N) (new : str) (s : str) : str :=
  flat_map (fun c => if (c =? old)%N then new else [c]) s.

(** [sep.join(parts)] *)
Fixpoint join (sep : str) (parts : list str) : str :=
  match parts with
  | [] => []
  | [p] => p
  | p :: rest => p ++ sep ++ join sep rest
  end.

(** [l[k]] with Python's negative indices; [IndexError] out of range. *)
Definition getitem {A : Type} (l : list A) (k : Z) : result A :=
  let j := if k <? 0 then k + len l else k in
  if (0 <=? j) && (j <? len l) then
    match nth_error l (Z.to_nat j) with
    | Some a => Ok a
    | None => Raise IndexError
    end
  else Raise IndexError.

(** A slice bound brought into [0 .. len]. *)
Definition clamp (n k : Z) : Z :=
  let j := if k <? 0 then k + n else k in Z.max 0 (Z.min n j).

(** [l[lo:hi]] *)
Definition slice {A : Type} (l : list A) (lo hi : Z) : list A :=
  let a := clamp (len l) lo in
  let b := clamp (len l) hi in
  firstn (Z.to_nat (b - a)) (skipn (Z.to_nat a) l).

(** [l[lo:]] *)
Definition slice_from {A : Type} (l : list A) (lo : Z) : list A :=
  skipn (Z.to_nat (clamp (len l) lo)) l.

(** [tok in l] *)
Definition contains (tok : str) (l : list str) : bool := existsb (str_eqb tok) l.

Fixpoint index_from (tok : str) (l : list str) (k : Z) : result Z :=
  match l with
  | [] => Raise ValueError
  | x :: l' => if str_eqb x tok then Ok k else index_from tok l' (k + 1)
  end.

(** [l.index(tok)]: first position, [ValueError] when absent. *)
Definition index (tok : str) (l : list str) : result Z := index_from tok l 0.

End Py.

Import Py.

(** ** Regular expressions of [re], as backtracking matchers

    A matcher reads a prefix of its input and hands the rest to its
    continuation; [orelse] is the ordered choice of the engine, so that a
    continuation that fails makes the engine try the next alternative. *)

Module Re.

Definition orelse {A : Type} (x y : option A) : option A :=
  match x with
  | Some _ => x
  | None => y
  end.

Definition in_class (lo hi c : N) : bool := ((lo <=? c)%N && (c <=? hi)%N)%bool.

Definition ascii_digit (c : N) : bool := in_class 48 57 c.
Definition ascii_upper (c : N) : bool := in_class 65 90 c.
Definition ascii_lower (c : N) : bool := in_class 97 122 c.

(** One literal character. *)
Definition char {A : Type} (x : N) (s : str) (k : str -> option A) : option A :=
  match s with
  | c :: r => if (c =? x)%N then k r else None
  | [] => None
  end.

(** One ASCII digit in [lo .. hi], with its value. *)
Definition range {A : Type} (lo hi : N) (s : str) (k : N -> str -> option A)
  : option A :=
  match s with
  | c :: r => if in_class lo hi c then k (c - 48)%N r else None
  | [] => None
  end.

(** [\d]: one decimal digit of any script, with its value. *)
Definition digit {A : Type} (s : str) (k : N -> str -> option A) : option A :=
  match s with
  | c :: r => match decimal_value c with
              | Some v => k v r
              | None => None
              end
  | [] => None
  end.

(** Characters matched by the pattern character [p] under [re.IGNORECASE]:
    the other case of a letter, and the engine's extra cases for i, s, k. *)
Definition ci_eqb (p c : N) : bool :=
  (c =? p)%N
  || (ascii_upper p && (c =? p + 32)%N)
  || (ascii_lower p && (c =? p - 32)%N)
  || (((p =? 73) || (p =? 105))%N && ((c =? 304) || (c =? 305))%N)
  || (((p =? 83) || (p =? 115))%N && (c =? 383)%N)
  || (((p =? 75) || (p =? 107))%N && (c =? 8490)%N).

(** A literal word, case-insensitively. *)
Fixpoint word_ci {A : Type} (w : str) (s : str) (k : str -> option A) : option A :=
  match w with
  | [] => k s
  | p :: w' =>
      match s with
      | c :: r => if ci_eqb p c then word_ci w' r k else None
      | [] => None
      end
  end.

(** [\s*], greedy. *)
Fixpoint spaces {A : Type} (s : str) (k : str -> option A) : option A :=
  match s with
  | c :: r => if isspace_cp c then orelse (spaces r k) (k s) else k s
  | [] => k s
  end.

(** [\s+], greedy. *)
Definition spaces1 {A : Type} (s : str) (k : str -> option A) : option A :=
  match s with
  | c :: r => if isspace_cp c then spaces r k else None
  | [] => None
  end.

(** [p{n}]: exactly [n] characters of the class [p]; the text read is passed
    on. *)
Fixpoint times {A : Type} (n : nat) (p : N -> bool) (s : str)
  (k : str -> str -> option A) : option A :=
  match n with
  | O => k [] s
  | S n' =>
      match s with
      | c :: r => if p c then times n' p r (fun m r' => k (c :: m) r') else None
      | [] => None
      end
  end.

(** [p+], greedy. *)
Fixpoint many {A : Type} (p : N -> bool) (s : str) (k : str -> str -> option A)
  : option A :=
  match s with
  | c :: r =>
      if p c then orelse (many p r (fun m r' => k (c :: m) r')) (k [] s)
      else k [] s
  | [] => k [] s
  end.

Definition many1 {A : Type} (p : N -> bool) (s : str)
  (k : str -> str -> option A) : option A :=
  match s with
  | c :: r => if p c then many p r (fun m r' => k (c :: m) r') else None
  | [] => None
  end.

(** [re.search]: the match at the leftmost position that has one. *)
Fixpoint search {A : Type} (m : str -> option A) (s : str) : option A :=
  orelse (m s)
         (match s with
          | [] => None
          | _ :: r => search m r
          end).

End Re.

(** ** Calendar dates: [datetime.strptime] and [strftime] *)

Module Dates.

Record date : Type := mkdate { year : N; month : N; day : N }.

Definition is_leap (y : N) : bool :=
  (((y mod 4 =? 0) && negb (y mod 100 =? 0)) || (y mod 400 =? 0))%N.

Definition days_in_month (y m : N) : N :=
  if ((m =? 1) || (m =? 3) || (m =? 5) || (m =? 7) || (m =? 8) || (m =? 10)
      || (m =? 12))%N then 31%N
  else if ((m =? 4) || (m =? 6) || (m =? 9) || (m =? 11))%N then 30%N
  else if (m =? 2)%N then (if is_leap y then 29%N else 28%N)
  else 0%N.

(** The dates [datetime] accepts: years 1 to 9999. *)
Definition valid_date (y m d : N) : bool :=
  ((1 <=? y) && (y <=? 9999) && (1 <=? m) && (m <=? 12) && (1 <=? d)
   && (d <=? days_in_month y m))%N.

Inductive date_format : Type :=
| Ymd (sep : N)   (* "%Y/%m/%d" and "%Y-%m-%d" *)
| Dmy             (* "%d/%m/%Y" *)
| Mdy.            (* "%m/%d/%Y" *)

Definition slash : N := 47.
Definition dash : N := 45.

(** [%Y]: [\d\d\d\d] *)
Definition re_Y {A : Type} (s : str) (k : N -> str -> option A) : option A :=
  Re.digit s (fun a s1 => Re.digit s1 (fun b s2 => Re.digit s2 (fun c s3 =>
  Re.digit s3 (fun d s4 => k (1000 * a + 100 * b + 10 * c + d)%N s4)))).

(** [%m]: [1[0-2]|0[1-9]|[1-9]] *)
Definition re_m {A : Type} (s : str) (k : N -> str -> option A) : option A :=
  Re.orelse (Re.char 49 s (fun s1 => Re.range 48 50 s1 (fun v s2 => k (10 + v)%N s2)))
 (Re.orelse (Re.char 48 s (fun s1 => Re.range 49 57 s1 k))
            (Re.range 49 57 s k)).

(** [%d]: [3[0-1]|[1-2]\d|0[1-9]|[1-9]| [1-9]] *)
Definition re_d {A : Type} (s : str) (k : N -> str -> option A) : option A :=
  Re.orelse (Re.char 51 s (fun s1 => Re.range 48 49 s1 (fun v s2 => k (30 + v)%N s2)))
 (Re.orelse (Re.range 49 50 s (fun t s1 => Re.digit s1 (fun v s2 => k (10 * t + v)%N s2)))
 (Re.orelse (Re.char 48 s (fun s1 => Re.range 49 57 s1 k))
 (Re.orelse (Re.range 49 57 s k)
            (Re.char 32 s (fun s1 => Re.range 49 57 s1 k))))).

(** The regular expression of a format, matched at the start of [s]: the
    fields (year, month, day) and the text left over. *)
Definition format_match (fmt : date_format) (s : str) : option (N * N * N * str) :=
  match fmt with
  | Ymd sep =>
      re_Y s (fun y s1 => Re.char sep s1 (fun s2 => re_m s2 (fun m s3 =>
      Re.char sep s3 (fun s4 => re_d s4 (fun d s5 => Some (y, m, d, s5))))))
  | Dmy =>
      re_d s (fun d s1 => Re.char slash s1 (fun s2 => re_m s2 (fun m s3 =>
      Re.char slash s3 (fun s4 => re_Y s4 (fun y s5 => Some (y, m, d, s5))))))
  | Mdy =>
      re_m s (fun m s1 => Re.char slash s1 (fun s2 => re_d s2 (fun d s3 =>
      Re.char slash s3 (fun s4 => re_Y s4 (fun y s5 => Some (y, m, d, s5))))))
  end.

(** [datetime.strptime(s, fmt)]: [ValueError] when the format does not
    match, when text remains, or when the fields are not a date. *)
Definition strptime (s : str) (fmt : date_format) : result date :=
  match format_match fmt s with
  | None => Raise ValueError
  | Some (y, m, d, rest) =>
      if truthy rest then Raise ValueError
      else if valid_date y m d then Ok (mkdate y m d)
      else Raise ValueError
  end.

Definition digit_cp (k : N) : N := (48 + k)%N.

(** Two digits, zero-padded ([%m], [%d]). *)
Definition pad2 (n : N) : str := [digit_cp (n / 10 mod 10); digit_cp (n mod 10)].

Definition digits4 (y : N) : list N :=
  [y / 1000 mod 10; y / 100 mod 10; y / 10 mod 10; y mod 10]%N.

(** Four digits, zero-padded. *)
Definition pad4 (y : N) : str := map digit_cp (digits4 y).

(** [%Y] of [strftime] for a year up to 9999. The C library decides whether
    a year below 1000 is zero-padded (glibc does not pad). *)
Definition fmt_Y (pads_year : bool) (y : N) : str :=
  if pads_year then pad4 y
  else match dropwhile (N.eqb 0) (digits4 y) with
       | [] => [digit_cp 0]
       | ds => map digit_cp ds
       end.

(** [d.strftime("%Y-%m-%d")] *)
Definition strftime_iso (pads_year : bool) (d : date) : str :=
  fmt_Y pads_year (year d) ++ [dash] ++ pad2 (month d) ++ [dash] ++ pad2 (day d).

End Dates.

Import Dates.

(** What a run depends on outside its inputs: the clock ([date.today()]) and
    the C library's rendering of [%Y]. *)
Record Env : Type := mkEnv { today : date; pads_year : bool }.

(** ** Utilities of [app.py] *)

Definition form_feed : N := 12.

(** [tokenize]: form feeds become spaces, then the non-empty whitespace
    separated tokens. *)
Definition tokenize (line : str) : list str :=
  let line := strip (replace_cp form_feed (lit " ") line) in
  filter (fun t => truthy t) (split line).

(** The class [[A-Za-z0-9\-_/]] under [re.IGNORECASE]. *)
Definition doc_no_char (c : N) : bool :=
  Re.ascii_upper c || Re.ascii_lower c || Re.ascii_digit c
  || (c =? 45)%N || (c =? 95)%N || (c =? 47)%N
  || (c =? 304)%N || (c =? 305)%N || (c =? 383)%N || (c =? 8490)%N.

(** The class [[A-Za-z0-9\-_]], case-sensitively. *)
Definition safe_char (c : N) : bool :=
  Re.ascii_upper c || Re.ascii_lower c || Re.ascii_digit c
  || (c =? 45)%N || (c =? 95)%N.

(** [Shipping\s+Document\s+No:\s*([A-Za-z0-9\-_/]+)] at the start of [s];
    the result is group 1. *)
Definition shipping_doc_re (s : str) : option str :=
  Re.word_ci (lit "Shipping") s (fun s1 => Re.spaces1 s1 (fun s2 =>
  Re.word_ci (lit "Document") s2 (fun s3 => Re.spaces1 s3 (fun s4 =>
  Re.word_ci (lit "No:") s4 (fun s5 => Re.spaces s5 (fun s6 =>
  Re.many1 doc_no_char s6 (fun g _ => Some g))))))).

Definition extract_shipping_doc_number (txt : str) : option str :=
  match Re.search shipping_doc_re txt with
  | None => None
  | Some g =>
      let r := map (fun c => if safe_char c then c else 95%N) (strip g) in
      if truthy r then Some r else None
  end.

Definition date_formats : list date_format := [Ymd slash; Ymd dash; Dmy; Mdy].

(** The [for fmt in ...: try ... except ValueError: pass] of
    [normalize_date_str]. *)
Fixpoint normalize_loop (env : Env) (s : str) (fmts : list date_format)
  : result (option str) :=
  match fmts with
  | [] => Ok None
  | fmt :: rest =>
      match strptime s fmt with
      | Ok d => Ok (Some (strftime_iso (pads_year env) d))
      | Raise ValueError => normalize_loop env s rest
      | Raise e => Raise e
      | OutOfFuel => OutOfFuel
      end
  end.

Definition normalize_date_str (env : Env) (s : str) : result (option str) :=
  let s := strip s in
  normalize_loop env s date_formats.

Definition is_sep (c : N) : bool := ((c =? slash) || (c =? dash))%N.
Definition is_slash (c : N) : bool := (c =? slash)%N.

(** The group
    [([0-9]{4}[/-][0-9]{2}[/-][0-9]{2}|[0-9]{2}/[0-9]{2}/[0-9]{4})]. *)
Definition date_group (s : str) : option str :=
  Re.orelse
    (Re.times 4 Re.ascii_digit s (fun y s1 => Re.times 1 is_sep s1 (fun a s2 =>
     Re.times 2 Re.ascii_digit s2 (fun m s3 => Re.times 1 is_sep s3 (fun b s4 =>
     Re.times 2 Re.ascii_digit s4 (fun d _ => Some (y ++ a ++ m ++ b ++ d)))))))
    (Re.times 2 Re.ascii_digit s (fun x s1 => Re.times 1 is_slash s1 (fun a s2 =>
     Re.times 2 Re.ascii_digit s2 (fun m s3 => Re.times 1 is_slash s3 (fun b s4 =>
     Re.times 4 Re.ascii_digit s4 (fun y _ => Some (x ++ a ++ m ++ b ++ y))))))).

(** [Received\s+Date:\s*(...)] *)
Definition received_re (s : str) : option str :=
  Re.word_ci (lit "Received") s (fun s1 => Re.spaces1 s1 (fun s2 =>
  Re.word_ci (lit "Date:") s2 (fun s3 => Re.spaces s3 date_group))).

(** [Date\s+Created:\s*(...)] *)
Definition created_re (s : str) : option str :=
  Re.word_ci (lit "Date") s (fun s1 => Re.spaces1 s1 (fun s2 =>
  Re.word_ci (lit "Created:") s2 (fun s3 => Re.spaces s3 date_group))).

(** One tier of the fall-back chain: the label is found and its date
    normalizes to a non-empty string. *)
Definition date_tier (env : Env) (re : str -> option str) (txt : str)
  : result (option str) :=
  match Re.search re txt with
  | None => Ok None
  | Some g =>
      d <- normalize_date_str env g ;;
      match d with
      | Some d' => if truthy d' then Ok (Some d') else Ok None
      | None => Ok None
      end
  end.

Definition extract_received_or_created_date (env : Env) (txt : str) : result str :=
  rec <- date_tier env received_re txt ;;
  match rec with
  | Some d => Ok d
  | None =>
      created <- date_tier env created_re txt ;;
      match created with
      | Some d => Ok d
      | None => Ok (strftime_iso (pads_year env) (today env))
      end
  end.

(** The loop of [find_marker_idx] over the candidate tokens. *)
Fixpoint find_marker_loop (toks : list str) (parts2 : list str) : result (option Z) :=
  match toks with
  | [] => Ok None
  | tok :: rest =>
      if contains tok parts2 then
        idx <- index tok parts2 ;;
        followed <- (if idx + 1 <? len parts2
                     then (nxt <- getitem parts2 (idx + 1) ;; Ok (str_eqb nxt (lit "V")))
                     else Ok false) ;;
        if (followed : bool) then Ok (Some idx)
        else find_marker_loop rest parts2
      else find_marker_loop rest parts2
  end.

Definition find_marker_idx (parts2 : list str) : result (option Z) :=
  find_marker_loop [lit "I"; lit "S"] parts2.

(** ** Data frames of [pandas]

    A cell is dynamically typed. [pd.to_numeric(..., errors="coerce")] is
    idealized: it is modelled cell by cell on decimal numerals (sign, digits,
    fraction, exponent), read as exact rationals, and any other text becomes
    the missing value [CNaN]. The model has no [float64]: it knows no
    rounding, no overflow and no infinities (the texts "inf" and "1e400" are
    infinite for pandas), and it gives a column no type of its own, where
    pandas converts a column as a whole and [pd.concat] unifies the types of
    the frames it stacks. Of the numeric cells the results below use the
    value only where the numeral is one that [float64] holds exactly (the
    10, 5.00 and 50.00 of scenario 1); what they say of the rows of a batch
    is said of the text columns. *)

Module Pd.

Inductive cell : Type :=
| CStr (s : str)
| CNum (q : Q)
| CNaN.

(** A run of ASCII digits: its value, its length and the text after it. *)
Fixpoint read_digits (s : str) (acc : N) (n : N) : N * N * str :=
  match s with
  | c :: r => if Re.ascii_digit c then read_digits r (10 * acc + (c - 48))%N (n + 1)%N
              else (acc, n, s)
  | [] => (acc, n, s)
  end.

Definition read_sign (s : str) : bool * str :=
  match s with
  | c :: r => if (c =? 45)%N then (true, r)
              else if (c =? 43)%N then (false, r)
              else (false, s)
  | [] => (false, s)
  end.

(** The optional exponent, up to the end of the text. *)
Definition read_exponent (s : str) : option Z :=
  match s with
  | [] => Some 0
  | c :: r =>
      if ((c =? 101) || (c =? 69))%N then
        let '(neg, r1) := read_sign r in
        let '(v, n, r2) := read_digits r1 0%N 0%N in
        if ((0 <? n)%N && negb (truthy r2))%bool
        then Some (if neg then - Z.of_N v else Z.of_N v)
        else None
      else None
  end.

Definition parse_decimal (s : str) : option Q :=
  let '(neg, s1) := read_sign s in
  let '(ip, ni, s2) := read_digits s1 0%N 0%N in
  let '(fp, nf, s3) :=
    match s2 with
    | c :: r => if (c =? 46)%N then read_digits r 0%N 0%N else (0%N, 0%N, s2)
    | [] => (0%N, 0%N, s2)
    end in
  if (ni + nf =? 0)%N then None
  else
    match read_exponent s3 with
    | None => None
    | Some e =>
        let mant := Z.of_N (ip * 10 ^ nf + fp) in
        let signed := if (neg : bool) then (- mant)%Z else mant in
        Some (Qred (Qmult (signed # 1) (Qpower (10 # 1) (e - Z.of_N nf))))
    end.

(** [pd.to_numeric] on one cell with [errors="coerce"]. *)
Definition to_numeric_cell (c : cell) : cell :=
  match c with
  | CStr s => match parse_decimal s with
              | Some q => CNum q
              | None => CNaN
              end
  | CNum q => CNum q
  | CNaN => CNaN
  end.

(** A Python [dict] with string keys, in insertion order. *)
Definition dict : Type := list (string * cell).

Fixpoint lookup (c : string) (r : dict) : option cell :=
  match r with
  | [] => None
  | (k, v) :: r' => if String.eqb k c then Some v else lookup c r'
  end.

Definition mem (c : string) (l : list string) : bool := existsb (String.eqb c) l.

(** A frame: the column labels in order, and one record per row holding a
    cell for each label. *)
Record DataFrame : Type := mkDF { columns : list string; rows : list dict }.

(** The labels [ks] added to [seen], in order of first appearance. *)
Fixpoint union_keys (seen : list string) (ks : list string) : list string :=
  match ks with
  | [] => seen
  | k :: ks' => if mem k seen then union_keys seen ks'
                else union_keys (seen ++ [k]) ks'
  end.

Definition cell_or_nan (c : string) (r : dict) : cell :=
  match lookup c r with
  | Some v => v
  | None => CNaN
  end.

(** A record laid out on the labels [cols]; a label it lacks is missing. *)
Definition reindex (cols : list string) (r : dict) : dict :=
  map (fun c => (c, cell_or_nan c r)) cols.

(** [pd.DataFrame(entries)] for a list of dicts. *)
Definition of_records (entries : list dict) : DataFrame :=
  let cols := fold_left (fun seen e => union_keys seen (map fst e)) entries [] in
  mkDF cols (map (reindex cols) entries).

(** [df.empty] *)
Definition empty (df : DataFrame) : bool :=
  negb (truthy (columns df)) || negb (truthy (rows df)).

Definition set_cell (c : string) (f : cell -> cell) (r : dict) : dict :=
  map (fun kv => if String.eqb (fst kv) c then (fst kv, f (snd kv)) else kv) r.

(** [df[c] = pd.to_numeric(df[c], errors="coerce")] *)
Definition coerce_column (c : string) (df : DataFrame) : result DataFrame :=
  if mem c (columns df)
  then Ok (mkDF (columns df) (map (set_cell c to_numeric_cell) (rows df)))
  else Raise KeyError.

(** [cols.remove(c)]: the first occurrence, [ValueError] when absent. *)
Fixpoint list_remove (c : string) (cols : list string) : result (list string) :=
  match cols with
  | [] => Raise ValueError
  | k :: cols' => if String.eqb k c then Ok cols'
                  else (r <- list_remove c cols' ;; Ok (k :: r))
  end.

(** [df[cols]] *)
Definition select (cols : list string) (df : DataFrame) : result DataFrame :=
  if forallb (fun c => mem c (columns df)) cols
  then Ok (mkDF cols (map (reindex cols) (rows df)))
  else Raise KeyError.

(** [pd.concat(frames, ignore_index=True)] for a non-empty list. *)
Definition concat (frames : list DataFrame) : result DataFrame :=
  match frames with
  | [] => Raise ValueError
  | _ =>
      let cols := fold_left (fun seen df => union_keys seen (columns df)) frames [] in
      Ok (mkDF cols (flat_map (fun df => map (reindex cols) (rows df)) frames))
  end.

End Pd.

Import Pd.

(** ** Parsing one document: [parse_one_text] *)

(** [cleaned_lines]: the stripped non-blank lines, form feeds removed. *)
Definition clean_lines (txt_content : str) : list str :=
  let raw_lines := splitlines txt_content in
  map (fun ln => replace_cp form_feed [] (strip ln))
      (filter (fun ln => truthy (strip ln)) raw_lines).

(** [doc_no or ""] *)
Definition or_empty (o : option str) : str :=
  match o with
  | Some s => s
  | None => []
  end.

(** One iteration of the [while] loop at cursor [i]: the cursor and the
    entries afterwards. *)
Definition scan_step (cleaned_lines : list str) (doc_no : option str)
  (date_rcvd : str) (i : Z) (entries : list dict) : result (Z * list dict) :=
  line1 <- getitem cleaned_lines i ;;
  let first_tokens := tokenize line1 in
  is_header <- (if truthy first_tokens
                then (t <- getitem first_tokens 0 ;; Ok (isdigit t))
                else Ok false) ;;
  if (is_header : bool) then
    if i + 1 <? len cleaned_lines then
      line2 <- getitem cleaned_lines (i + 1) ;;
      let parts1 := first_tokens in
      let parts2 := tokenize line2 in
      shaped <- (if (8 <=? len parts1) && (5 <=? len parts2)
                 then (t <- getitem parts2 0 ;; Ok (isdigit t))
                 else Ok false) ;;
      if (shaped : bool) then
        marker <- find_marker_idx parts2 ;;
        match marker with
        | Some marker_idx =>
            let description := join (lit " ") (slice parts2 1 marker_idx) in
            let tams_idx := marker_idx + 2 in
            tams <- (if tams_idx <? len parts2 then getitem parts2 tams_idx
                     else Ok []) ;;
            let tail := filter (fun t => negb (str_eqb t (lit ".")))
                               (slice_from parts2 (tams_idx + 1)) in
            additional_info <- (if truthy tail then getitem tail (-1) else Ok []) ;;
            p_line <- getitem parts1 0 ;;
            p_prefix <- getitem parts1 1 ;;
            p_base <- getitem parts1 2 ;;
            p_suffix <- getitem parts1 3 ;;
            p_qty <- getitem parts1 (-4) ;;
            p_uom <- getitem parts1 (-3) ;;
            p_unit <- getitem parts1 (-2) ;;
            p_total <- getitem parts1 (-1) ;;
            ticket <- getitem parts2 0 ;;
            let entry : dict :=
              [ ("Line"%string, CStr p_line);
                ("Date Rcvd"%string, CStr date_rcvd);
                ("Part Prefix"%string, CStr p_prefix);
                ("Part Base"%string, CStr p_base);
                ("Part Suffix"%string, CStr p_suffix);
                ("Description"%string, CStr description);
                ("Quantity"%string, CStr p_qty);
                ("UOM"%string, CStr p_uom);
                ("Unit Price ($)"%string, CStr p_unit);
                ("Total Price"%string, CStr p_total);
                ("TAMS"%string, CStr tams);
                ("Ticket Number"%string, CStr ticket);
                ("Additional Info"%string, CStr additional_info);
                ("Source Doc"%string, CStr (or_empty doc_no)) ] in
            Ok (i + 2, entries ++ [entry])
        | None => Ok (i + 1, entries)
        end
      else Ok (i + 1, entries)
    else Ok (i + 1, entries)
  else Ok (i + 1, entries).

(** [while i < len(cleaned_lines) - 1: ...] *)
Fixpoint scan (fuel : nat) (cleaned_lines : list str) (doc_no : option str)
  (date_rcvd : str) (i : Z) (entries : list dict) : result (list dict) :=
  if i <? len cleaned_lines - 1 then
    match fuel with
    | O => OutOfFuel
    | S fuel' =>
        '(i', entries') <- scan_step cleaned_lines doc_no date_rcvd i entries ;;
        scan fuel' cleaned_lines doc_no date_rcvd i' entries'
    end
  else Ok entries.

(** The [if not df.empty:] block: numeric coercion and column order. *)
Definition finish_frame (df : DataFrame) : result DataFrame :=
  if negb (empty df) then
    df1 <- coerce_column "Quantity" df ;;
    df2 <- coerce_column "Unit Price ($)" df1 ;;
    df3 <- coerce_column "Total Price" df2 ;;
    let cols := columns df3 in
    cols1 <- list_remove "Additional Info" cols ;;
    cols2 <- list_remove "Ticket Number" cols1 ;;
    let cols3 := cols2 ++ ["Ticket Number"%string] in
    let cols4 := cols3 ++ ["Additional Info"%string] in
    select cols4 df3
  else Ok df.

Record Meta : Type := mkMeta { meta_doc_no : option str; meta_date_rcvd : str }.

(** [override_date or extract_received_or_created_date(txt_content)] *)
Definition choose_date (env : Env) (txt_content : str) (override_date : option str)
  : result str :=
  match override_date with
  | Some d => if truthy d then Ok d
              else extract_received_or_created_date env txt_content
  | None => extract_received_or_created_date env txt_content
  end.

Definition parse_one_text (env : Env) (txt_content : str)
  (override_date : option str) : result (DataFrame * Meta) :=
  let cleaned_lines := clean_lines txt_content in
  let doc_no := extract_shipping_doc_number txt_content in
  date_rcvd <- choose_date env txt_content override_date ;;
  entries <- scan (List.length cleaned_lines) cleaned_lines doc_no date_rcvd 0 [] ;;
  df <- finish_frame (of_records entries) ;;
  Ok (df, mkMeta doc_no date_rcvd).

(** ** Decoding uploaded bytes *)

Module Codec.

Inductive encoding : Type :=
| Utf8Sig
| Utf8
| Latin1.

Definition is_cont (b : N) : bool := Re.in_class 128 191 b.

Definition low6 (b : N) : N := (b - 128)%N.

(** Strict UTF-8 (no overlong forms, no surrogates, at most U+10FFFF);
    [None] stands for [UnicodeDecodeError]. *)
Fixpoint utf8_decode (bs : list N) : option str :=
  match bs with
  | [] => Some []
  | b0 :: r0 =>
      if (b0 <? 128)%N then option_map (cons b0) (utf8_decode r0)
      else if Re.in_class 194 223 b0 then
        match r0 with
        | b1 :: r1 =>
            if is_cont b1
            then option_map (cons ((b0 - 192) * 64 + low6 b1)%N) (utf8_decode r1)
            else None
        | _ => None
        end
      else if Re.in_class 224 239 b0 then
        match r0 with
        | b1 :: b2 :: r2 =>
            if (is_cont b1 && is_cont b2
                && (if (b0 =? 224)%N then (160 <=? b1)%N else true)
                && (if (b0 =? 237)%N then (b1 <=? 159)%N else true))%bool
            then option_map
                   (cons ((b0 - 224) * 4096 + low6 b1 * 64 + low6 b2)%N)
                   (utf8_decode r2)
            else None
        | _ => None
        end
      else if Re.in_class 240 244 b0 then
        match r0 with
        | b1 :: b2 :: b3 :: r3 =>
            if (is_cont b1 && is_cont b2 && is_cont b3
                && (if (b0 =? 240)%N then (144 <=? b1)%N else true)
                && (if (b0 =? 244)%N then (b1 <=? 143)%N else true))%bool
            then option_map
                   (cons ((b0 - 240) * 262144 + low6 b1 * 4096
                          + low6 b2 * 64 + low6 b3)%N)
                   (utf8_decode r3)
            else None
        | _ => None
        end
      else None
  end.

(** The byte order mark EF BB BF is dropped when it opens the data. *)
Definition strip_bom (bs : list N) : list N :=
  match bs with
  | 239%N :: 187%N :: 191%N :: r => r
  | _ => bs
  end.

(** [raw.decode(enc)] *)
Definition decode (raw : list Byte.byte) (enc : encoding) : option str :=
  let bs := map Byte.to_N raw in
  match enc with
  | Utf8Sig => utf8_decode (strip_bom bs)
  | Utf8 => utf8_decode bs
  | Latin1 => Some bs
  end.

End Codec.

Import Codec.

(** ** The main flow over the uploaded files *)

Record upload : Type := mkUpload { file_name : str; file_bytes : list Byte.byte }.

(** The [for enc in ...: try: txt = raw.decode(enc); break except
    UnicodeDecodeError: continue] loop; [txt] is the variable as it stood
    before the loop ([None] when it is not bound). *)
Fixpoint decode_loop (encs : list encoding) (raw : list Byte.byte)
  (txt : option str) : option str :=
  match encs with
  | [] => txt
  | enc :: rest =>
      match decode raw enc with
      | Some t => Some t
      | None => decode_loop rest raw txt
      end
  end.

Definition encodings : list encoding := [Utf8Sig; Utf8; Latin1].

Record flow : Type := mkFlow {
  txt_var : option str;
  all_details : list DataFrame;
  doc_badges : list str;
  meta_dates : list str
}.

(** The body of [for f in uploaded_files]. *)
Definition process_file (env : Env) (use_header_date : bool)
  (manual_date_value : date) (st : flow) (f : upload) : result flow :=
  let raw := file_bytes f in
  let txt := decode_loop encodings raw (txt_var st) in
  let override := if use_header_date then None
                  else Some (strftime_iso (pads_year env) manual_date_value) in
  match txt with
  | None => Raise NameError
  | Some t =>
      '(detail_df, meta) <- parse_one_text env t override ;;
      let badge := match meta_doc_no meta with
                   | Some d => if truthy d then d else file_name f
                   | None => file_name f
                   end in
      Ok (mkFlow txt
                 (all_details st ++ [detail_df])
                 (doc_badges st ++ [badge])
                 (meta_dates st ++ [meta_date_rcvd meta]))
  end.

Fixpoint process_files (env : Env) (use_header_date : bool)
  (manual_date_value : date) (st : flow) (files : list upload) : result flow :=
  match files with
  | [] => Ok st
  | f :: rest =>
      st' <- process_file env use_header_date manual_date_value st f ;;
      process_files env use_header_date manual_date_value st' rest
  end.

(** [details] of the main flow; nothing is assembled when no file was
    uploaded. *)
Definition main_flow (env : Env) (use_header_date : bool)
  (manual_date_value : date) (uploaded_files : list upload)
  : result (option DataFrame) :=
  if truthy uploaded_files then
    st <- process_files env use_header_date manual_date_value
            (mkFlow None [] [] []) uploaded_files ;;
    details <- (if truthy (all_details st) then concat (all_details st)
                else Ok (mkDF [] [])) ;;
    Ok (Some details)
  else Ok None.

(** * Specification-side definitions *)

(** Position of the first occurrence of [tok]. *)
Fixpoint first_pos (tok : str) (l : list str) : option nat :=
  match l with
  | [] => None
  | x :: l' => if str_eqb x tok then Some O else option_map S (first_pos tok l')
  end.

(** The first occurrence of [tok], when the token after it is "V". *)
Definition qualifying (tok : str) (l : list str) : option Z :=
  match first_pos tok l with
  | Some i =>
      match nth_error l (S i) with
      | Some v => if str_eqb v (lit "V") then Some (Z.of_nat i) else None
      | None => None
      end
  | None => None
  end.

(** The marker as the specification words it: "S" is looked at only when
    "I" is absent. *)
Definition marker_as_specified (l : list str) : option Z :=
  match first_pos (lit "I") l with
  | Some _ => qualifying (lit "I") l
  | None => qualifying (lit "S") l
  end.

(** The marker the code finds: the first qualifying candidate, "I" before
    "S". *)
Definition marker_of (parts2 : list str) : option Z :=
  match qualifying (lit "I") parts2 with
  | Some i => Some i
  | None => qualifying (lit "S") parts2
  end.

Definition line_at (cleaned_lines : list str) (i : Z) : str :=
  nth (Z.to_nat i) cleaned_lines [].

Definition first_token_isdigit (tokens : list str) : bool :=
  match tokens with
  | t :: _ => isdigit t
  | [] => false
  end.

(** The acceptance conditions on the pair of lines at [i] and [i + 1]; the
    result is the marker index of the detail line when all of them hold. *)
Definition accepted_marker (cleaned_lines : list str) (i : Z) : option Z :=
  let header := tokenize (line_at cleaned_lines i) in
  let detail := tokenize (line_at cleaned_lines (i + 1)) in
  if first_token_isdigit header && (8 <=? len header) && (5 <=? len detail)
     && first_token_isdigit detail
  then marker_of detail
  else None.

Definition tok_at (tokens : list str) (k : nat) : str := nth k tokens [].

(** The record of an accepted pair, field by field. *)
Definition record_of (doc_no : option str) (date_rcvd : str)
  (header detail : list str) (m : Z) : dict :=
  let n := List.length header in
  let after_tams := skipn (Z.to_nat m + 3) detail in
  let tail := filter (fun t => negb (str_eqb t (lit "."))) after_tams in
  [ ("Line"%string, CStr (tok_at header 0));
    ("Date Rcvd"%string, CStr date_rcvd);
    ("Part Prefix"%string, CStr (tok_at header 1));
    ("Part Base"%string, CStr (tok_at header 2));
    ("Part Suffix"%string, CStr (tok_at header 3));
    ("Description"%string,
     CStr (join (lit " ") (firstn (Z.to_nat m - 1) (skipn 1 detail))));
    ("Quantity"%string, CStr (tok_at header (n - 4)));
    ("UOM"%string, CStr (tok_at header (n - 3)));
    ("Unit Price ($)"%string, CStr (tok_at header (n - 2)));
    ("Total Price"%string, CStr (tok_at header (n - 1)));
    ("TAMS"%string, CStr (tok_at detail (Z.to_nat m + 2)));
    ("Ticket Number"%string, CStr (tok_at detail 0));
    ("Additional Info"%string, CStr (last tail []));
    ("Source Doc"%string, CStr (or_empty doc_no)) ].

(** [e] is the record of an accepted pair of [cleaned_lines]. *)
Definition is_record (cleaned_lines : list str) (doc_no : option str)
  (date_rcvd : str) (e : dict) : Prop :=
  exists i m,
    0 <= i < len cleaned_lines - 1 /\
    accepted_marker cleaned_lines i = Some m /\
    e = record_of doc_no date_rcvd (tokenize (line_at cleaned_lines i))
          (tokenize (line_at cleaned_lines (i + 1))) m.

(** The keys of an entry, in the order the dict is written. *)
Definition entry_keys : list string :=
  ["Line"; "Date Rcvd"; "Part Prefix"; "Part Base"; "Part Suffix";
   "Description"; "Quantity"; "UOM"; "Unit Price ($)"; "Total Price"; "TAMS";
   "Ticket Number"; "Additional Info"; "Source Doc"]%string.

(** The columns after the reordering of [parse_one_text]. *)
Definition final_columns : list string :=
  ["Line"; "Date Rcvd"; "Part Prefix"; "Part Base"; "Part Suffix";
   "Description"; "Quantity"; "UOM"; "Unit Price ($)"; "Total Price"; "TAMS";
   "Source Doc"; "Ticket Number"; "Additional Info"]%string.

(** The fourteen columns in the order the specification lists them (§6). *)
Definition columns_as_specified : list string :=
  ["Line"; "Date Rcvd"; "Part Prefix"; "Part Base"; "Part Suffix";
   "Description"; "Quantity"; "UOM"; "Unit Price ($)"; "Total Price"; "TAMS";
   "Ticket Number"; "Additional Info"; "Source Doc"]%string.

(** What the [if not df.empty] block makes of one entry. *)
Definition assemble (e : dict) : dict :=
  reindex final_columns
    (set_cell "Total Price" to_numeric_cell
       (set_cell "Unit Price ($)" to_numeric_cell
          (set_cell "Quantity" to_numeric_cell e))).

Definition well_keyed (e : dict) : Prop :=
  map fst e = entry_keys /\ reindex entry_keys e = e.

Definition record_shaped (e : dict) : Prop :=
  exists doc_no date_rcvd header detail m,
    e = record_of doc_no date_rcvd header detail m.

(** A frame as [parse_one_text] returns it. *)
Definition assembled_frame (df : DataFrame) : Prop :=
  exists es, Forall record_shaped es
             /\ df = mkDF (match es with [] => [] | _ => final_columns end)
                          (map assemble es).

Definition any_rows (frames : list DataFrame) : bool :=
  existsb (fun df => truthy (rows df)) frames.

(** ** Dates as written in the four accepted forms *)

(** [YYYY/MM/DD] and [YYYY-MM-DD] *)
Definition write_ymd (sep : N) (y m d : N) : str :=
  pad4 y ++ sep :: pad2 m ++ sep :: pad2 d.

(** [DD/MM/YYYY] *)
Definition write_dmy (y m d : N) : str :=
  pad2 d ++ slash :: pad2 m ++ slash :: pad4 y.

(** [MM/DD/YYYY] *)
Definition write_mdy (y m d : N) : str :=
  pad2 m ++ slash :: pad2 d ++ slash :: pad4 y.

(** The normalized form [YYYY-MM-DD]. *)
Definition iso (y m d : N) : str :=
  pad4 y ++ dash :: pad2 m ++ dash :: pad2 d.

Definition between (lo hi a : N) : bool := ((lo <=? a) && (a <=? hi))%N.

(** ** Sample documents *)

Definition newline : N := 10.

(** Scenario 1 of the specification, as worded there. *)
Definition scenario1 : str :=
  lit "12 AB 1234 C 10 EA 5.00 50.00" ++ [newline]
  ++ lit "T987 Widget kit I V TAMS1 . X".

(** The same pair with an all-digit ticket number. *)
Definition scenario1_numeric : str :=
  lit "12 AB 1234 C 10 EA 5.00 50.00" ++ [newline]
  ++ lit "987 Widget kit I V TAMS1 . X".

(** A document with a header, two labels and one record. *)
Definition labelled_doc : str :=
  lit "Shipping Document No: AB/12-34" ++ [newline]
  ++ lit "Received Date: 2024/03/05" ++ [newline]
  ++ lit "12 AB 1234 C 10 EA 5.00 50.00" ++ [newline]
  ++ lit "987 Widget kit I V TAMS1 . X" ++ [newline]
  ++ lit "End of report".

(** A pair whose header has ten tokens: two more between the part number
    and the last four. *)
Definition long_header_doc : str :=
  lit "12 AB 1234 C spare part 10 EA 5.00 50.00" ++ [newline]
  ++ lit "987 Widget kit I V TAMS1 . X".

(** A document with no recognizable pair: the first line carries a marker
    of its own, and the second is not a detail line. *)
Definition no_pair_doc : str :=
  lit "12 AB I V 10 EA 5.00 50.00" ++ [newline] ++ lit "foo".

Definition sample_env : Env := mkEnv (mkdate 2026 11 4) false.

Definition sample_date : date := mkdate 2026 11 4.

Definition ascii_bytes (s : string) : list Byte.byte :=
  map byte_of_ascii (list_ascii_of_string s).

(** An upload holding one record. *)
Definition upload_with_record : upload :=
  mkUpload (lit "a.txt")
    (ascii_bytes "12 AB 1234 C 10 EA 5.00 50.00" ++ [Byte.x0a]
     ++ ascii_bytes "987 Widget kit I V TAMS1 . X").

(** An upload holding no record. *)
Definition upload_without_record : upload :=
  mkUpload (lit "b.txt") (ascii_bytes "No shortages to report").

(** ** Definitions for the further properties *)

(** A token as [split] yields it: non-empty and free of whitespace. *)
Definition clean_token (t : str) : bool :=
  truthy t && forallb (fun c => negb (isspace_cp c)) t.



(** The text the decoding loop binds for an upload. *)
Definition file_text (f : upload) : str :=
  match decode_loop encodings (file_bytes f) None with
  | Some t => t
  | None => []
  end.

(** The override date the main flow passes to the parser. *)
Definition override_of (env : Env) (use_header_date : bool) (manual : date)
  : option str :=
  if use_header_date then None
  else Some (strftime_iso (pads_year env) manual).

(** The columns that hold text: all but the three coerced ones. *)
Definition text_columns : list string :=
  ["Line"; "Date Rcvd"; "Part Prefix"; "Part Base"; "Part Suffix";
   "Description"; "UOM"; "TAMS"; "Source Doc"; "Ticket Number";
   "Additional Info"]%string.

(** A row restricted to its text columns. *)
Definition text_part (r : dict) : dict := reindex text_columns r.

(** The frame of one upload. *)
Definition file_frame (env : Env) (use_header_date : bool) (manual : date)
  (f : upload) : DataFrame :=
  match parse_one_text env (file_text f) (override_of env use_header_date manual) with
  | Ok (df, _) => df
  | _ => mkDF [] []
  end.

(** A Unicode scalar value: a code point that is not a surrogate. *)
Definition scalar_value (c : N) : bool :=
  ((c <? 55296) || ((57344 <=? c) && (c <=? 1114111)))%N.

(** The UTF-8 bytes of a scalar value. *)
Definition utf8_encode_cp (c : N) : list N :=
  if (c <? 128)%N then [c]
  else if (c <? 2048)%N then [192 + c / 64; 128 + c mod 64]%N
  else if (c <? 65536)%N then
    [224 + c / 4096; 128 + (c / 64) mod 64; 128 + c mod 64]%N
  else [240 + c / 262144; 128 + (c / 4096) mod 64; 128 + (c / 64) mod 64;
        128 + c mod 64]%N.

Definition utf8_encode (s : str) : list N := flat_map utf8_encode_cp s.

(** The byte order mark, and the code point it encodes. *)
Definition bom : list N := [239; 187; 191]%N.
Definition bom_cp : N := 65279.

(** ** The export file name of the main flow *)

(** [a < b] on strings: lexicographic on code points. *)
Fixpoint str_ltb (a b : str) : bool :=
  match a, b with
  | _, [] => false
  | [], _ :: _ => true
  | x :: a', y :: b' => ((x <? y)%N || ((x =? y)%N && str_ltb a' b'))%bool
  end.

(** [x] put in its place in an ascending list without duplicates. *)
Fixpoint insert_unique (x : str) (l : list str) : list str :=
  match l with
  | [] => [x]
  | y :: l' =>
      if str_eqb x y then l
      else if str_ltb x y then x :: l
      else y :: insert_unique x l'
  end.

(** [sorted(set(l))] *)
Definition sorted_set (l : list str) : list str := fold_right insert_unique [] l.

(** [doc_part], [date_part] and [filename] of the main flow. *)
Definition export_filename (env : Env) (use_header_date : bool)
  (manual_date_value : date) (st : flow) : result str :=
  let unique_docs := sorted_set (doc_badges st) in
  doc_part <- (if len unique_docs =? 1 then getitem unique_docs 0
               else Ok (lit "MULTI")) ;;
  let date_part :=
    if negb use_header_date
    then strftime_iso (pads_year env) manual_date_value
    else if truthy (meta_dates st)
         then join (lit ",") (sorted_set (meta_dates st))
         else strftime_iso (pads_year env) (today env) in
  Ok (lit "shortage_report_" ++ doc_part ++ lit "_" ++ date_part ++ lit ".xlsx").

(** The metadata of one upload. *)
Definition file_meta (env : Env) (use_header_date : bool) (manual : date)
  (f : upload) : Meta :=
  match parse_one_text env (file_text f) (override_of env use_header_date manual) with
  | Ok (_, meta) => meta
  | _ => mkMeta None []
  end.

(** [meta.get("doc_no") or f.name] *)
Definition badge_of (env : Env) (use_header_date : bool) (manual : date)
  (f : upload) : str :=
  match meta_doc_no (file_meta env use_header_date manual f) with
  | Some d => if truthy d then d else file_name f
  | None => file_name f
  end.

(** * Properties *)

(** ** Indexing *)

Lemma len_nonneg {A : Type} (l : list A) : 0 <= len l.
Proof. unfold len. lia. Qed.

Lemma getitem_nonneg {A : Type} (l : list A) (k : Z) :
  0 <= k < len l ->
  exists a, nth_error l (Z.to_nat k) = Some a /\ getitem l k = Ok a.
Proof.
  intros Hk. unfold getitem.
  replace (k <? 0) with false by (symmetry; apply Z.ltb_ge; lia).
  replace (0 <=? k) with true by (symmetry; apply Z.leb_le; lia).
  replace (k <? len l) with true by (symmetry; apply Z.ltb_lt; lia).
  cbn [andb].
  destruct (nth_error l (Z.to_nat k)) as [a|] eqn:E.
  - exists a. split; reflexivity.
  - apply nth_error_None in E. unfold len in Hk. lia.
Qed.

Lemma getitem_neg {A : Type} (l : list A) (k : Z) :
  - len l <= k < 0 ->
  exists a, nth_error l (Z.to_nat (len l + k)) = Some a /\ getitem l k = Ok a.
Proof.
  intros Hk. unfold getitem.
  replace (k <? 0) with true by (symmetry; apply Z.ltb_lt; lia).
  replace (0 <=? k + len l) with true by (symmetry; apply Z.leb_le; lia).
  replace (k + len l <? len l) with true by (symmetry; apply Z.ltb_lt; lia).
  cbn [andb]. replace (len l + k) with (k + len l) by lia.
  destruct (nth_error l (Z.to_nat (k + len l))) as [a|] eqn:E.
  - exists a. split; reflexivity.
  - apply nth_error_None in E. unfold len in Hk. unfold len in E. lia.
Qed.

Lemma str_eqb_eq (a b : str) : str_eqb a b = true <-> a = b.
Proof.
  revert b. induction a as [|x a IH]; intros [|y b]; cbn; split; intros H;
    try reflexivity; try discriminate.
  - apply andb_true_iff in H. destruct H as [H1 H2].
    apply N.eqb_eq in H1. apply IH in H2. subst. reflexivity.
  - injection H as -> ->. apply andb_true_iff. split.
    + apply N.eqb_refl.
    + apply IH. reflexivity.
Qed.

Lemma str_eqb_refl (a : str) : str_eqb a a = true.
Proof. apply str_eqb_eq. reflexivity. Qed.

(** ** The marker locator *)

Lemma first_pos_some (tok : str) (l : list str) (i : nat) :
  first_pos tok l = Some i <->
  nth_error l i = Some tok /\ (forall j, (j < i)%nat -> nth_error l j <> Some tok).
Proof.
  revert i. induction l as [|x l IH]; intros i; cbn.
  - split; [discriminate|]. intros [H _]. destruct i; discriminate.
  - destruct (str_eqb x tok) eqn:E.
    + apply str_eqb_eq in E. subst x. split.
      * intros H. injection H as <-. split; [reflexivity|]. intros j Hj. lia.
      * intros [H1 H2]. destruct i as [|i]; [reflexivity|].
        exfalso. apply (H2 O); [lia|reflexivity].
    + assert (Hx : x <> tok).
      { intros ->. rewrite str_eqb_refl in E. discriminate. }
      destruct (first_pos tok l) as [p|] eqn:Ep; cbn.
      * split.
        -- intros H. injection H as <-.
           destruct (proj1 (IH p) eq_refl) as [H1 H2]. split; [exact H1|].
           intros [|j] Hj; cbn.
           ++ intros H. injection H as H. contradiction.
           ++ apply H2. lia.
        -- intros [H1 H2]. destruct i as [|i].
           ++ cbn in H1. injection H1 as H1. contradiction.
           ++ f_equal. assert (Hi : Some p = Some i).
              { apply IH. split; [exact H1|].
                intros j Hj. apply (H2 (S j)). lia. }
              injection Hi as ->. reflexivity.
      * split; [discriminate|]. intros [H1 H2]. destruct i as [|i].
        -- cbn in H1. injection H1 as H1. contradiction.
        -- assert (Hi : None = Some i).
           { apply IH. split; [exact H1|]. intros j Hj. apply (H2 (S j)). lia. }
           discriminate.
Qed.

Lemma first_pos_none (tok : str) (l : list str) :
  first_pos tok l = None <-> contains tok l = false.
Proof.
  unfold contains. induction l as [|x l IH]; cbn.
  - split; reflexivity.
  - destruct (str_eqb x tok) eqn:E.
    + apply str_eqb_eq in E. subst x. rewrite str_eqb_refl. cbn.
      split; discriminate.
    + assert (E' : str_eqb tok x = false).
      { destruct (str_eqb tok x) eqn:E2; [|reflexivity].
        apply str_eqb_eq in E2. subst. rewrite str_eqb_refl in E. discriminate. }
      rewrite E'. cbn. destruct (first_pos tok l); cbn.
      * split; [discriminate|]. intros H. apply IH in H. discriminate.
      * split; intros _; [apply IH|]; reflexivity.
Qed.

Lemma index_from_first_pos (tok : str) (l : list str) (k : Z) :
  index_from tok l k =
  match first_pos tok l with
  | Some i => Ok (k + Z.of_nat i)
  | None => Raise ValueError
  end.
Proof.
  revert k. induction l as [|x l IH]; intros k; cbn; [reflexivity|].
  destruct (str_eqb x tok); [f_equal; lia|].
  rewrite IH. destruct (first_pos tok l); cbn; [f_equal; lia|reflexivity].
Qed.

Lemma first_pos_lt (tok : str) (l : list str) (i : nat) :
  first_pos tok l = Some i -> (i < List.length l)%nat.
Proof.
  intros H. apply first_pos_some in H. destruct H as [H _].
  apply nth_error_Some. congruence.
Qed.

(** One round of the loop of [find_marker_idx]. *)
Lemma find_marker_loop_cons (tok : str) (rest parts2 : list str) :
  find_marker_loop (tok :: rest) parts2 =
  match qualifying tok parts2 with
  | Some i => Ok (Some i)
  | None => find_marker_loop rest parts2
  end.
Proof.
  cbn [find_marker_loop]. unfold qualifying, index.
  rewrite index_from_first_pos.
  destruct (first_pos tok parts2) as [i|] eqn:E.
  - assert (Hc : contains tok parts2 = true).
    { destruct (contains tok parts2) eqn:C; [reflexivity|].
      apply first_pos_none in C. congruence. }
    rewrite Hc. cbn [bind]. rewrite Z.add_0_l.
    pose proof (first_pos_lt _ _ _ E) as Hlt.
    destruct (Z.of_nat i + 1 <? len parts2) eqn:L.
    + apply Z.ltb_lt in L.
      destruct (getitem_nonneg parts2 (Z.of_nat i + 1)) as [a [Ha Hg]]; [lia|].
      rewrite Hg. cbn [bind].
      replace (Z.to_nat (Z.of_nat i + 1)) with (S i) in Ha by lia.
      rewrite Ha. destruct (str_eqb a (lit "V")); reflexivity.
    + apply Z.ltb_ge in L. cbn [bind].
      destruct (nth_error parts2 (S i)) as [v|] eqn:Ev; [|reflexivity].
      exfalso. assert (S i < List.length parts2)%nat.
      { apply nth_error_Some. congruence. }
      unfold len in L. lia.
  - assert (Hc : contains tok parts2 = false) by (apply first_pos_none; exact E).
    rewrite Hc. reflexivity.
Qed.

Lemma qualifying_bounds (tok : str) (l : list str) (m : Z) :
  qualifying tok l = Some m -> 0 <= m /\ m + 1 < len l.
Proof.
  unfold qualifying. destruct (first_pos tok l) as [i|]; [|discriminate].
  destruct (nth_error l (S i)) as [v|] eqn:E; [|discriminate].
  destruct (str_eqb v (lit "V")); [|discriminate].
  intros H. injection H as <-.
  assert (S i < List.length l)%nat by (apply nth_error_Some; congruence).
  unfold len. lia.
Qed.

Lemma find_marker_idx_marker_of (parts2 : list str) :
  find_marker_idx parts2 = Ok (marker_of parts2).
Proof.
  unfold find_marker_idx, marker_of. rewrite !find_marker_loop_cons.
  destruct (qualifying (lit "I") parts2); [reflexivity|].
  destruct (qualifying (lit "S") parts2); reflexivity.
Qed.

Lemma marker_of_bounds (parts2 : list str) (m : Z) :
  marker_of parts2 = Some m -> 0 <= m /\ m + 1 < len parts2.
Proof.
  unfold marker_of. destruct (qualifying (lit "I") parts2) as [i|] eqn:E.
  - intros H. injection H as <-. eapply qualifying_bounds. exact E.
  - apply qualifying_bounds.
Qed.

Lemma getitem_nth {A : Type} (l : list A) (k : Z) (d : A) :
  0 <= k < len l -> getitem l k = Ok (nth (Z.to_nat k) l d).
Proof.
  intros Hk. destruct (getitem_nonneg l k Hk) as [a [Ha Hg]].
  rewrite Hg. f_equal. symmetry. apply nth_error_nth. exact Ha.
Qed.

Lemma getitem_nth_neg {A : Type} (l : list A) (k : Z) (d : A) :
  - len l <= k < 0 -> getitem l k = Ok (nth (Z.to_nat (len l + k)) l d).
Proof.
  intros Hk. destruct (getitem_neg l k Hk) as [a [Ha Hg]].
  rewrite Hg. f_equal. symmetry. apply nth_error_nth. exact Ha.
Qed.

Lemma last_as_nth {A : Type} (l : list A) (d : A) :
  last l d = nth (List.length l - 1) l d.
Proof.
  induction l as [|x l IH]; [reflexivity|].
  destruct l as [|y l]; [reflexivity|].
  cbn [last] in *. rewrite IH. cbn [List.length nth].
  replace (S (List.length l) - 0)%nat with (S (List.length l - 0)) by lia.
  cbn. rewrite Nat.sub_0_r. reflexivity.
Qed.

Lemma slice_nonneg {A : Type} (l : list A) (lo hi : Z) :
  0 <= lo <= len l -> 0 <= hi <= len l ->
  slice l lo hi = firstn (Z.to_nat (hi - lo)) (skipn (Z.to_nat lo) l).
Proof.
  intros H1 H2. unfold slice, clamp.
  replace (lo <? 0) with false by (symmetry; apply Z.ltb_ge; lia).
  replace (hi <? 0) with false by (symmetry; apply Z.ltb_ge; lia).
  rewrite !Z.min_r by lia. rewrite !Z.max_r by lia. reflexivity.
Qed.

Lemma slice_from_nonneg {A : Type} (l : list A) (lo : Z) :
  0 <= lo -> slice_from l lo = skipn (Z.to_nat lo) l.
Proof.
  intros H. unfold slice_from, clamp.
  replace (lo <? 0) with false by (symmetry; apply Z.ltb_ge; lia).
  rewrite Z.max_r by (pose proof (len_nonneg l); lia).
  destruct (Z.le_gt_cases lo (len l)) as [Hle|Hgt].
  - rewrite Z.min_r by lia. reflexivity.
  - rewrite Z.min_l by lia. unfold len in *.
    rewrite !skipn_all2 by lia. reflexivity.
Qed.

(** ** One step of the scan *)

Lemma first_token_getitem (tokens : list str) :
  (if truthy tokens then (t <- getitem tokens 0 ;; Ok (isdigit t)) else Ok false)
  = Ok (first_token_isdigit tokens).
Proof. destruct tokens as [|t ts]; reflexivity. Qed.

Lemma scan_step_spec (cleaned_lines : list str) (doc_no : option str)
  (date_rcvd : str) (i : Z) (entries : list dict) :
  0 <= i < len cleaned_lines - 1 ->
  scan_step cleaned_lines doc_no date_rcvd i entries =
  Ok (match accepted_marker cleaned_lines i with
      | Some m =>
          (i + 2,
           entries ++ [record_of doc_no date_rcvd
                         (tokenize (line_at cleaned_lines i))
                         (tokenize (line_at cleaned_lines (i + 1))) m])
      | None => (i + 1, entries)
      end).
Proof.
  intros Hi. unfold scan_step, accepted_marker.
  rewrite (getitem_nth cleaned_lines i []) by lia. cbn [bind].
  fold (line_at cleaned_lines i).
  set (parts1 := tokenize (line_at cleaned_lines i)).
  rewrite first_token_getitem. cbn [bind].
  destruct (first_token_isdigit parts1) eqn:Hd; [|reflexivity].
  replace (i + 1 <? len cleaned_lines) with true
    by (symmetry; apply Z.ltb_lt; lia).
  rewrite (getitem_nth cleaned_lines (i + 1) []) by lia. cbn [bind].
  fold (line_at cleaned_lines (i + 1)).
  set (parts2 := tokenize (line_at cleaned_lines (i + 1))).
  cbn [andb].
  destruct (8 <=? len parts1) eqn:H8; [|reflexivity].
  destruct (5 <=? len parts2) eqn:H5; [|reflexivity].
  apply Z.leb_le in H8, H5. cbn [andb].
  rewrite (getitem_nth parts2 0 ([] : str)) by lia. cbn [bind].
  assert (Hf : first_token_isdigit parts2 = isdigit (nth (Z.to_nat 0) parts2 [])).
  { destruct parts2 as [|t ts]; [cbn in H5; lia|reflexivity]. }
  rewrite Hf. destruct (isdigit (nth (Z.to_nat 0) parts2 [])); [|reflexivity].
  rewrite find_marker_idx_marker_of. cbn [bind].
  destruct (marker_of parts2) as [m|] eqn:Hm; [|reflexivity].
  destruct (marker_of_bounds _ _ Hm) as [Hm0 Hm1].
  assert (Htams : (if m + 2 <? len parts2 then getitem parts2 (m + 2) else Ok [])
                  = Ok (tok_at parts2 (Z.to_nat m + 2))).
  { unfold tok_at. destruct (m + 2 <? len parts2) eqn:L.
    - apply Z.ltb_lt in L. rewrite (getitem_nth parts2 (m + 2) ([] : str)) by lia.
      do 2 f_equal. lia.
    - apply Z.ltb_ge in L. rewrite nth_overflow; [reflexivity|].
      unfold len in L. lia. }
  rewrite Htams. cbn [bind].
  rewrite slice_from_nonneg by lia.
  replace (Z.to_nat (m + 2 + 1)) with (Z.to_nat m + 3)%nat by lia.
  set (tail := filter _ (skipn (Z.to_nat m + 3) parts2)).
  assert (Htail : (if truthy tail then getitem tail (-1) else Ok [])
                  = Ok (last tail [])).
  { destruct tail as [|t ts] eqn:Et; [reflexivity|]. cbn [truthy].
    rewrite (getitem_nth_neg (t :: ts) (-1) ([] : str)).
    - rewrite last_as_nth. do 2 f_equal. unfold len. cbn [List.length]. lia.
    - unfold len. cbn [List.length]. lia. }
  rewrite Htail. cbn [bind].
  rewrite (getitem_nth parts1 0 ([] : str)) by lia. cbn [bind].
  rewrite (getitem_nth parts1 1 ([] : str)) by lia. cbn [bind].
  rewrite (getitem_nth parts1 2 ([] : str)) by lia. cbn [bind].
  rewrite (getitem_nth parts1 3 ([] : str)) by lia. cbn [bind].
  rewrite (getitem_nth_neg parts1 (-4) ([] : str)) by lia. cbn [bind].
  rewrite (getitem_nth_neg parts1 (-3) ([] : str)) by lia. cbn [bind].
  rewrite (getitem_nth_neg parts1 (-2) ([] : str)) by lia. cbn [bind].
  rewrite (getitem_nth_neg parts1 (-1) ([] : str)) by lia. cbn [bind].
  rewrite slice_nonneg by lia.
  unfold record_of, tok_at. fold tail.
  replace (Z.to_nat (len parts1 + -4)) with (List.length parts1 - 4)%nat
    by (unfold len; lia).
  replace (Z.to_nat (len parts1 + -3)) with (List.length parts1 - 3)%nat
    by (unfold len; lia).
  replace (Z.to_nat (len parts1 + -2)) with (List.length parts1 - 2)%nat
    by (unfold len; lia).
  replace (Z.to_nat (len parts1 + -1)) with (List.length parts1 - 1)%nat
    by (unfold len; lia).
  replace (Z.to_nat (m - 1)) with (Z.to_nat m - 1)%nat by lia.
  reflexivity.
Qed.

(** ** The scan as a whole *)

Lemma scan_from (cleaned_lines : list str) (doc_no : option str)
  (date_rcvd : str) (fuel : nat) :
  forall (i : Z) (entries : list dict),
    0 <= i -> len cleaned_lines - 1 - i <= Z.of_nat fuel ->
    exists emitted,
      scan fuel cleaned_lines doc_no date_rcvd i entries = Ok (entries ++ emitted)
      /\ Forall (is_record cleaned_lines doc_no date_rcvd) emitted
      /\ ((forall j, i <= j < len cleaned_lines - 1 ->
                     accepted_marker cleaned_lines j = None) -> emitted = []).
Proof.
  induction fuel as [|fuel IH]; intros i entries Hi Hfuel.
  - exists []. cbn [scan].
    replace (i <? len cleaned_lines - 1) with false
      by (symmetry; apply Z.ltb_ge; lia).
    rewrite app_nil_r. repeat split. constructor.
  - cbn [scan]. destruct (i <? len cleaned_lines - 1) eqn:L.
    + apply Z.ltb_lt in L. rewrite scan_step_spec by lia. cbn [bind].
      destruct (accepted_marker cleaned_lines i) as [m|] eqn:Ha.
      * destruct (IH (i + 2)
                    (entries ++ [record_of doc_no date_rcvd
                                   (tokenize (line_at cleaned_lines i))
                                   (tokenize (line_at cleaned_lines (i + 1))) m]))
          as [em [H1 [H2 H3]]]; [lia|lia|].
        exists (record_of doc_no date_rcvd (tokenize (line_at cleaned_lines i))
                  (tokenize (line_at cleaned_lines (i + 1))) m :: em).
        rewrite H1, <- app_assoc. repeat split.
        -- constructor; [|exact H2]. exists i, m. repeat split; [lia|lia|exact Ha].
        -- intros Hn. rewrite Hn in Ha by lia. discriminate.
      * destruct (IH (i + 1) entries) as [em [H1 [H2 H3]]]; [lia|lia|].
        exists em. split; [exact H1|]. split; [exact H2|].
        intros Hn. apply H3. intros j Hj. apply Hn. lia.
    + exists []. rewrite app_nil_r. repeat split. constructor.
Qed.

(** An accepted pair at [k] whose header line is not itself taken as the
    detail line of the pair before it is reached by the cursor, and its
    record is emitted. *)
Lemma scan_emits (cleaned_lines : list str) (doc_no : option str)
  (date_rcvd : str) (fuel : nat) :
  forall (i : Z) (entries : list dict) (k m : Z),
    0 <= i <= k -> k < len cleaned_lines - 1 ->
    len cleaned_lines - 1 - i <= Z.of_nat fuel ->
    accepted_marker cleaned_lines k = Some m ->
    (i < k -> accepted_marker cleaned_lines (k - 1) = None) ->
    exists es,
      scan fuel cleaned_lines doc_no date_rcvd i entries = Ok es
      /\ In (record_of doc_no date_rcvd (tokenize (line_at cleaned_lines k))
               (tokenize (line_at cleaned_lines (k + 1))) m) es.
Proof.
  induction fuel as [|fuel IH]; intros i entries k m Hi Hk Hfuel Ha Hprev; [lia|].
  cbn [scan].
  replace (i <? len cleaned_lines - 1) with true by (symmetry; apply Z.ltb_lt; lia).
  rewrite scan_step_spec by lia. cbn [bind].
  destruct (Z.eq_dec i k) as [->|Hne].
  - rewrite Ha.
    destruct (scan_from cleaned_lines doc_no date_rcvd fuel (k + 2)
                (entries ++ [record_of doc_no date_rcvd
                               (tokenize (line_at cleaned_lines k))
                               (tokenize (line_at cleaned_lines (k + 1))) m]))
      as [em [H1 _]]; [lia|lia|].
    eexists. split; [exact H1|].
    apply in_or_app. left. apply in_or_app. right. left. reflexivity.
  - destruct (accepted_marker cleaned_lines i) as [mi|] eqn:Hai.
    + assert (Hk1 : i + 1 <> k).
      { intros E. assert (E' : k - 1 = i) by lia.
        rewrite E' in Hprev. rewrite Hprev in Hai by lia. discriminate. }
      apply IH; try assumption; try lia. intros _. apply Hprev. lia.
    + apply IH; try assumption; try lia. intros _. apply Hprev. lia.
Qed.

(** ** Dates never raise out of [normalize_date_str] *)

Lemma strptime_outcome (s : str) (fmt : date_format) :
  (exists d, strptime s fmt = Ok d) \/ strptime s fmt = Raise ValueError.
Proof.
  unfold strptime. destruct (format_match fmt s) as [[[[y m] d] rest]|].
  - destruct (truthy rest); [right; reflexivity|].
    destruct (valid_date y m d); [left; eexists; reflexivity|right; reflexivity].
  - right. reflexivity.
Qed.

Lemma normalize_loop_ok (env : Env) (s : str) (fmts : list date_format) :
  exists r, normalize_loop env s fmts = Ok r.
Proof.
  induction fmts as [|fmt fmts IH]; cbn [normalize_loop].
  - eexists. reflexivity.
  - destruct (strptime_outcome s fmt) as [[d H]|H]; rewrite H.
    + eexists. reflexivity.
    + exact IH.
Qed.

Lemma date_tier_ok (env : Env) (re : str -> option str) (txt : str) :
  exists r, date_tier env re txt = Ok r.
Proof.
  unfold date_tier. destruct (Re.search re txt) as [g|]; [|eexists; reflexivity].
  unfold normalize_date_str.
  destruct (normalize_loop_ok env (strip g) date_formats) as [r H].
  rewrite H. cbn [bind]. destruct r as [d|]; [|eexists; reflexivity].
  destruct (truthy d); eexists; reflexivity.
Qed.

Lemma extract_date_ok (env : Env) (txt : str) :
  exists d, extract_received_or_created_date env txt = Ok d.
Proof.
  unfold extract_received_or_created_date.
  destruct (date_tier_ok env received_re txt) as [r H]. rewrite H. cbn [bind].
  destruct r as [d|]; [eexists; reflexivity|].
  destruct (date_tier_ok env created_re txt) as [r' H']. rewrite H'. cbn [bind].
  destruct r' as [d|]; eexists; reflexivity.
Qed.

Lemma choose_date_ok (env : Env) (txt : str) (override_date : option str) :
  exists d, choose_date env txt override_date = Ok d.
Proof.
  unfold choose_date. destruct override_date as [d|].
  - destruct (truthy d); [eexists; reflexivity|apply extract_date_ok].
  - apply extract_date_ok.
Qed.

(** ** Assembling the frame *)

Lemma record_of_well_keyed doc_no date_rcvd header detail m :
  well_keyed (record_of doc_no date_rcvd header detail m).
Proof. split; reflexivity. Qed.

Lemma is_record_well_keyed cl doc_no date_rcvd e :
  is_record cl doc_no date_rcvd e -> well_keyed e.
Proof.
  intros [i [m [_ [_ ->]]]]. apply record_of_well_keyed.
Qed.

Lemma fold_union_keys (es : list dict) :
  Forall well_keyed es ->
  fold_left (fun seen e => union_keys seen (map fst e)) es entry_keys = entry_keys.
Proof.
  induction 1 as [|e es [He _] _ IH]; cbn [fold_left]; [reflexivity|].
  rewrite He. exact IH.
Qed.

Lemma of_records_well_keyed (es : list dict) :
  Forall well_keyed es ->
  of_records es = mkDF (match es with [] => [] | _ => entry_keys end) es.
Proof.
  intros H. unfold of_records. destruct es as [|e es]; [reflexivity|].
  cbn [fold_left]. inversion H as [|? ? He Hes]; subst.
  destruct He as [He1 He2]. rewrite He1.
  replace (union_keys [] entry_keys) with entry_keys by reflexivity.
  rewrite (fold_union_keys es Hes). f_equal.
  cbn [map]. rewrite He2. f_equal.
  clear -Hes. induction Hes as [|x l [_ Hx] _ IH]; cbn [map]; [reflexivity|].
  rewrite Hx, IH. reflexivity.
Qed.

Lemma finish_frame_well_keyed (es : list dict) :
  Forall well_keyed es ->
  finish_frame (of_records es) =
  Ok (mkDF (match es with [] => [] | _ => final_columns end) (map assemble es)).
Proof.
  intros H. rewrite of_records_well_keyed by exact H.
  destruct es as [|e es]; [reflexivity|].
  unfold finish_frame, empty. cbn [columns rows truthy negb orb].
  unfold coerce_column. cbn [columns rows].
  replace (mem "Quantity" entry_keys) with true by reflexivity. cbn [bind columns rows].
  replace (mem "Unit Price ($)" entry_keys) with true by reflexivity.
  cbn [bind columns rows].
  replace (mem "Total Price" entry_keys) with true by reflexivity.
  cbn [bind columns rows].
  replace (list_remove "Additional Info" entry_keys)
    with (Ok ["Line"; "Date Rcvd"; "Part Prefix"; "Part Base"; "Part Suffix";
              "Description"; "Quantity"; "UOM"; "Unit Price ($)"; "Total Price";
              "TAMS"; "Ticket Number"; "Source Doc"]%string) by reflexivity.
  cbn [bind].
  replace (list_remove "Ticket Number" _)
    with (Ok ["Line"; "Date Rcvd"; "Part Prefix"; "Part Base"; "Part Suffix";
              "Description"; "Quantity"; "UOM"; "Unit Price ($)"; "Total Price";
              "TAMS"; "Source Doc"]%string) by reflexivity.
  cbn [bind app]. unfold select. cbn [columns rows].
  replace (forallb _ _) with true by reflexivity.
  fold final_columns. f_equal. f_equal.
  rewrite !map_map. reflexivity.
Qed.

(** ** [parse_one_text] as a whole *)

Lemma parse_one_text_spec (env : Env) (txt : str) (override_date : option str) :
  let cl := clean_lines txt in
  let doc_no := extract_shipping_doc_number txt in
  exists date_rcvd es,
    choose_date env txt override_date = Ok date_rcvd
    /\ scan (List.length cl) cl doc_no date_rcvd 0 [] = Ok es
    /\ Forall (is_record cl doc_no date_rcvd) es
    /\ ((forall j, 0 <= j < len cl - 1 -> accepted_marker cl j = None) -> es = [])
    /\ parse_one_text env txt override_date =
       Ok (mkDF (match es with [] => [] | _ => final_columns end) (map assemble es),
           mkMeta doc_no date_rcvd).
Proof.
  intros cl doc_no.
  destruct (choose_date_ok env txt override_date) as [d Hd].
  destruct (scan_from cl doc_no d (List.length cl) 0 []) as [es [H1 [H2 H3]]];
    [lia|unfold len; lia|].
  cbn [app] in H1. exists d, es. repeat split; try assumption.
  unfold parse_one_text. fold cl. fold doc_no. rewrite Hd. cbn [bind].
  rewrite H1. cbn [bind].
  rewrite finish_frame_well_keyed.
  - reflexivity.
  - eapply Forall_impl; [|exact H2]. intros e. apply is_record_well_keyed.
Qed.

Lemma accepted_marker_digits (cl : list str) (i m : Z) :
  accepted_marker cl i = Some m ->
  first_token_isdigit (tokenize (line_at cl i)) = true
  /\ first_token_isdigit (tokenize (line_at cl (i + 1))) = true
  /\ 8 <= len (tokenize (line_at cl i))
  /\ 5 <= len (tokenize (line_at cl (i + 1)))
  /\ marker_of (tokenize (line_at cl (i + 1))) = Some m.
Proof.
  unfold accepted_marker.
  destruct (first_token_isdigit (tokenize (line_at cl i))); [|discriminate].
  destruct (8 <=? len (tokenize (line_at cl i))) eqn:H8; [|discriminate].
  destruct (5 <=? len (tokenize (line_at cl (i + 1)))) eqn:H5; [|discriminate].
  destruct (first_token_isdigit (tokenize (line_at cl (i + 1)))); [|discriminate].
  cbn [andb]. intros H. apply Z.leb_le in H8, H5. repeat split; assumption.
Qed.

(** ** The marker locator (C2) *)

(** C2, as amended: for every token list the marker locator returns the
    index of the first occurrence of "I" when the token after it is "V";
    otherwise (when "I" is absent, and also when its first occurrence is not
    followed by "V") the index of the first occurrence of "S" when the token
    after that is "V"; otherwise no marker. It never raises. *)
Theorem find_marker_idx_first_qualifying (parts2 : list str) :
  find_marker_idx parts2 =
  Ok (match qualifying (lit "I") parts2 with
      | Some i => Some i
      | None => qualifying (lit "S") parts2
      end).
Proof. apply find_marker_idx_marker_of. Qed.

(** C2 fails as stated: in "I x S V" the token "I" is present and not
    followed by "V", the claim gives no marker, and the code falls through to
    "S" and returns its index 2. *)
Lemma find_marker_idx_falls_through_to_S :
  first_pos (lit "I") [lit "I"; lit "x"; lit "S"; lit "V"] = Some 0%nat
  /\ marker_as_specified [lit "I"; lit "x"; lit "S"; lit "V"] = None
  /\ find_marker_idx [lit "I"; lit "x"; lit "S"; lit "V"] = Ok (Some 2)
  /\ find_marker_idx [lit "I"; lit "x"; lit "S"; lit "V"]
     <> Ok (marker_as_specified [lit "I"; lit "x"; lit "S"; lit "V"]).
Proof.
  repeat split; try reflexivity. vm_compute. discriminate.
Qed.

(** ** The scan step (C5, C6) *)

(** C6: at a cursor inside the scan, a line whose first token is not purely
    digits is skipped singly; a pair that fails an acceptance condition (in
    particular a detail line with no qualifying marker) emits nothing and
    moves the cursor by one; the cursor moves by two only when the pair is
    accepted, and then both lines start with an all-digit token. *)
Theorem scan_step_advance (cleaned_lines : list str) (doc_no : option str)
  (date_rcvd : str) (i : Z) (entries : list dict) :
  0 <= i < len cleaned_lines - 1 ->
  let header := tokenize (line_at cleaned_lines i) in
  let detail := tokenize (line_at cleaned_lines (i + 1)) in
  let step := scan_step cleaned_lines doc_no date_rcvd i entries in
  (first_token_isdigit header = false -> step = Ok (i + 1, entries))
  /\ (first_token_isdigit detail = false -> step = Ok (i + 1, entries))
  /\ (find_marker_idx detail = Ok None -> step = Ok (i + 1, entries))
  /\ (accepted_marker cleaned_lines i = None -> step = Ok (i + 1, entries))
  /\ (forall i' entries', step = Ok (i', entries') ->
        (i' = i + 1 /\ entries' = entries
         /\ accepted_marker cleaned_lines i = None)
        \/ (i' = i + 2
            /\ first_token_isdigit header = true
            /\ first_token_isdigit detail = true
            /\ exists m, accepted_marker cleaned_lines i = Some m
                 /\ entries' = entries ++ [record_of doc_no date_rcvd header detail m])).
Proof.
  intros Hi header detail step.
  assert (Hs : step = Ok (match accepted_marker cleaned_lines i with
                          | Some m => (i + 2, entries ++ [record_of doc_no date_rcvd header detail m])
                          | None => (i + 1, entries)
                          end)).
  { apply scan_step_spec. exact Hi. }
  assert (Hnone : accepted_marker cleaned_lines i = None -> step = Ok (i + 1, entries)).
  { intros H. rewrite Hs, H. reflexivity. }
  split; [|split; [|split; [|split]]].
  - intros H. apply Hnone. unfold accepted_marker. fold header. rewrite H. reflexivity.
  - intros H. apply Hnone. unfold accepted_marker. fold header. fold detail.
    rewrite H. rewrite !andb_false_r. reflexivity.
  - intros H. apply Hnone. unfold accepted_marker. fold header. fold detail.
    rewrite find_marker_idx_marker_of in H. injection H as H. rewrite H.
    destruct (_ && _); reflexivity.
  - exact Hnone.
  - intros i' entries' H. rewrite Hs in H.
    destruct (accepted_marker cleaned_lines i) as [m|] eqn:Ha.
    + right. injection H as <- <-.
      destruct (accepted_marker_digits _ _ _ Ha) as [H1 [H2 _]].
      repeat split; try assumption. exists m. split; reflexivity.
    + left. injection H as <- <-. repeat split.
Qed.

Lemma scan_step_advance_witness :
  0 <= 0 < len (clean_lines scenario1) - 1
  /\ scan_step (clean_lines scenario1) None [] 0 [] = Ok (1, []).
Proof.
  split.
  - vm_compute. split; [discriminate|reflexivity].
  - apply (scan_step_advance (clean_lines scenario1) None [] 0 []).
    + vm_compute. split; [discriminate|reflexivity].
    + vm_compute. reflexivity.
Defined.

(** C5: for an accepted pair whose header has [n >= 8] tokens, the record's
    Quantity, UOM, Unit Price and Total Price are the header's tokens at
    positions [n - 4], [n - 3], [n - 2] and [n - 1], whatever the number of
    tokens before them. *)
Theorem record_takes_last_four_tokens (cleaned_lines : list str)
  (doc_no : option str) (date_rcvd : str) (i m : Z) (entries : list dict) :
  0 <= i < len cleaned_lines - 1 ->
  accepted_marker cleaned_lines i = Some m ->
  let header := tokenize (line_at cleaned_lines i) in
  let n := List.length header in
  exists e qty uom unit total,
    scan_step cleaned_lines doc_no date_rcvd i entries = Ok (i + 2, entries ++ [e])
    /\ (8 <= n)%nat
    /\ nth_error header (n - 4) = Some qty
    /\ nth_error header (n - 3) = Some uom
    /\ nth_error header (n - 2) = Some unit
    /\ nth_error header (n - 1) = Some total
    /\ lookup "Quantity" e = Some (CStr qty)
    /\ lookup "UOM" e = Some (CStr uom)
    /\ lookup "Unit Price ($)" e = Some (CStr unit)
    /\ lookup "Total Price" e = Some (CStr total).
Proof.
  intros Hi Ha header n.
  destruct (accepted_marker_digits _ _ _ Ha) as [_ [_ [H8 _]]].
  fold header in H8. unfold len in H8. fold n in H8.
  exists (record_of doc_no date_rcvd header
            (tokenize (line_at cleaned_lines (i + 1))) m).
  exists (nth (n - 4) header []), (nth (n - 3) header []),
         (nth (n - 2) header []), (nth (n - 1) header []).
  split.
  { rewrite scan_step_spec by exact Hi. rewrite Ha. reflexivity. }
  split; [lia|].
  repeat split; try reflexivity; apply nth_error_nth'; fold n; lia.
Qed.

(** A header of ten tokens: the four fields are its tokens 6 to 9, not the
    tokens 4 to 7 that follow the part number. *)
Lemma record_takes_last_four_tokens_witness :
  List.length (tokenize (line_at (clean_lines long_header_doc) 0)) = 10%nat
  /\ nth_error (tokenize (line_at (clean_lines long_header_doc) 0)) 4
     = Some (lit "spare")
  /\ exists e,
       scan_step (clean_lines long_header_doc) None [] 0 []
       = Ok (2, e :: nil)
       /\ lookup "Quantity" e = Some (CStr (lit "10"))
       /\ lookup "UOM" e = Some (CStr (lit "EA"))
       /\ lookup "Unit Price ($)" e = Some (CStr (lit "5.00"))
       /\ lookup "Total Price" e = Some (CStr (lit "50.00")).
Proof.
  split; [vm_compute; reflexivity|]. split; [vm_compute; reflexivity|].
  destruct (record_takes_last_four_tokens
              (clean_lines long_header_doc) None [] 0 3 [])
    as [e [qty [uom [unit [total H]]]]].
  - vm_compute. split; [discriminate|reflexivity].
  - vm_compute. reflexivity.
  - destruct H as [Hs [_ [Hq [Hu [Hp [Ht [Lq [Lu [Lp Lt]]]]]]]]].
    exists e. split; [exact Hs|].
    vm_compute in Hq, Hu, Hp, Ht.
    injection Hq as <-. injection Hu as <-. injection Hp as <-. injection Ht as <-.
    repeat split; assumption.
Defined.

(** ** Termination of the scan (C9) *)

(** C9: for every input text the scan ends without raising, within one
    iteration per cleaned line (fuel [length - 1] is enough); every
    iteration moves the cursor by one or by two; a document with no
    recognizable pair (no cursor position of the scan holds an accepted
    pair) gives zero records and an empty frame, not an error. *)
Theorem scan_terminates_without_raising (env : Env) (txt : str)
  (override_date : option str) (doc_no : option str) (date_rcvd : str)
  (fuel : nat) :
  let cl := clean_lines txt in
  (List.length cl - 1 <= fuel)%nat ->
  (exists es, scan fuel cl doc_no date_rcvd 0 [] = Ok es
              /\ ((forall j, 0 <= j < len cl - 1 -> accepted_marker cl j = None)
                  -> es = []))
  /\ (forall i entries, 0 <= i < len cl - 1 ->
        exists i' entries',
          scan_step cl doc_no date_rcvd i entries = Ok (i', entries')
          /\ (i' = i + 1 \/ i' = i + 2))
  /\ (exists df meta,
        parse_one_text env txt override_date = Ok (df, meta)
        /\ ((forall j, 0 <= j < len cl - 1 -> accepted_marker cl j = None)
            -> df = mkDF [] [])).
Proof.
  intros cl Hfuel. split; [|split].
  - destruct (scan_from cl doc_no date_rcvd fuel 0 []) as [es [H1 [_ H3]]];
      [lia|unfold len; lia|].
    exists es. split; assumption.
  - intros i entries Hi. rewrite scan_step_spec by exact Hi.
    destruct (accepted_marker cl i); eexists; eexists; split;
      try reflexivity; lia.
  - destruct (parse_one_text_spec env txt override_date)
      as [d [es [_ [_ [_ [Hnone Hp]]]]]].
    eexists. eexists. split; [exact Hp|].
    intros H. fold cl in Hnone. rewrite (Hnone H). reflexivity.
Qed.

(** A document of two lines whose first line would pair with itself were
    the cursor allowed before the first line: it has no pair, and gives no
    record. *)
Lemma scan_terminates_without_raising_witness :
  (List.length (clean_lines no_pair_doc) - 1 <= 1)%nat
  /\ accepted_marker (clean_lines no_pair_doc) (-1) <> None
  /\ scan 1 (clean_lines no_pair_doc) None [] 0 [] = Ok []
  /\ exists meta, parse_one_text sample_env no_pair_doc None = Ok (mkDF [] [], meta).
Proof.
  assert (Hno : forall j, 0 <= j < len (clean_lines no_pair_doc) - 1 ->
                          accepted_marker (clean_lines no_pair_doc) j = None).
  { intros j Hj.
    assert (Hl : len (clean_lines no_pair_doc) - 1 = 1) by (vm_compute; reflexivity).
    assert (E : j = 0) by lia. subst j. vm_compute. reflexivity. }
  destruct (scan_terminates_without_raising sample_env no_pair_doc None None [] 1)
    as [[es [H1 H2]] [_ [df [meta [H3 H4]]]]].
  - vm_compute. repeat constructor.
  - split; [vm_compute; repeat constructor|].
    split; [vm_compute; discriminate|].
    split.
    + rewrite H1. f_equal. apply H2. exact Hno.
    + exists meta. rewrite H3. f_equal. f_equal. apply H4. exact Hno.
Defined.

(** ** Metadata of a document (C8) *)


(** Scenario 4 of the specification, and the date label of the same
    document. *)
Lemma labelled_doc_metadata :
  exists df,
    parse_one_text sample_env labelled_doc None
    = Ok (df, mkMeta (Some (lit "AB_12-34")) (lit "2024-03-05"))
    /\ List.length (rows df) = 1%nat.
Proof. eexists. split; vm_compute; reflexivity. Qed.

(** ** The assembled set of a batch (C3) *)

Lemma parse_one_text_frame (env : Env) (txt : str) (override_date : option str) :
  exists df meta, parse_one_text env txt override_date = Ok (df, meta)
                  /\ assembled_frame df.
Proof.
  destruct (parse_one_text_spec env txt override_date)
    as [d [es [_ [_ [Hrec [_ Hp]]]]]].
  eexists. eexists. split; [exact Hp|]. exists es. split; [|reflexivity].
  eapply Forall_impl; [|exact Hrec].
  intros e [i [m [_ [_ ->]]]]. repeat eexists.
Qed.

Lemma decode_loop_some (raw : list Byte.byte) (prev : option str) :
  exists t, decode_loop encodings raw prev = Some t
            /\ decode_loop encodings raw None = Some t.
Proof.
  unfold encodings. cbn [decode_loop].
  destruct (decode raw Utf8Sig) as [t|]; [exists t; split; reflexivity|].
  destruct (decode raw Utf8) as [t|]; [exists t; split; reflexivity|].
  cbn [decode]. eexists. split; reflexivity.
Qed.

Lemma process_file_ok (env : Env) (use_header_date : bool) (manual : date)
  (st : flow) (f : upload) :
  exists t df meta badge,
    decode_loop encodings (file_bytes f) None = Some t
    /\ parse_one_text env t
         (if use_header_date then None
          else Some (strftime_iso (pads_year env) manual)) = Ok (df, meta)
    /\ assembled_frame df
    /\ process_file env use_header_date manual st f
       = Ok (mkFlow (Some t) (all_details st ++ [df]) (doc_badges st ++ [badge])
                    (meta_dates st ++ [meta_date_rcvd meta])).
Proof.
  unfold process_file.
  destruct (decode_loop_some (file_bytes f) (txt_var st)) as [t [Ht Ht0]].
  rewrite Ht.
  destruct (parse_one_text_frame env t
              (if use_header_date then None
               else Some (strftime_iso (pads_year env) manual)))
    as [df [meta [Hp Hf]]].
  rewrite Hp. cbn [bind].
  exists t, df, meta. eexists. repeat split; try eassumption.
Qed.

Lemma process_files_ok (env : Env) (use_header_date : bool) (manual : date)
  (files : list upload) :
  forall st, Forall assembled_frame (all_details st) ->
    exists st', process_files env use_header_date manual st files = Ok st'
                /\ Forall assembled_frame (all_details st')
                /\ List.length (all_details st')
                   = (List.length (all_details st) + List.length files)%nat.
Proof.
  induction files as [|f files IH]; intros st Hst; cbn [process_files].
  - exists st. repeat split; [exact Hst|cbn; lia].
  - destruct (process_file_ok env use_header_date manual st f)
      as [t [df [meta [badge [_ [_ [Hf Hp]]]]]]].
    rewrite Hp. cbn [bind].
    destruct (IH (mkFlow (Some t) (all_details st ++ [df])
                         (doc_badges st ++ [badge])
                         (meta_dates st ++ [meta_date_rcvd meta])))
      as [st' [H1 [H2 H3]]].
    + cbn [all_details]. apply Forall_app. split; [exact Hst|].
      constructor; [exact Hf|constructor].
    + exists st'. repeat split; [exact H1|exact H2|].
      rewrite H3. cbn [all_details List.length]. rewrite length_app. cbn. lia.
Qed.

Lemma assemble_reindex (e : dict) :
  record_shaped e -> reindex final_columns (assemble e) = assemble e.
Proof. intros [doc [d [h [dt [m ->]]]]]. reflexivity. Qed.

Lemma fold_union_frames (frames : list DataFrame) :
  Forall assembled_frame frames ->
  fold_left (fun seen df => union_keys seen (columns df)) frames final_columns
  = final_columns
  /\ fold_left (fun seen df => union_keys seen (columns df)) frames []
     = if any_rows frames then final_columns else [].
Proof.
  induction 1 as [|df frames [es [_ ->]] _ [IH1 IH2]]; cbn [fold_left any_rows existsb].
  - split; reflexivity.
  - cbn [columns rows]. destruct es as [|e es]; cbn [map truthy orb].
    + split; [exact IH1|exact IH2].
    + replace (union_keys final_columns final_columns) with final_columns
        by reflexivity.
      replace (union_keys [] final_columns) with final_columns by reflexivity.
      split; exact IH1.
Qed.

Lemma concat_assembled (frames : list DataFrame) :
  Forall assembled_frame frames -> frames <> [] ->
  concat frames
  = Ok (mkDF (if any_rows frames then final_columns else [])
             (flat_map rows frames)).
Proof.
  intros H Hne. unfold concat. destruct frames as [|df0 frames0] eqn:E;
    [contradiction|]. rewrite <- E in *. clear E Hne.
  destruct (fold_union_frames frames H) as [_ Hc]. rewrite Hc. f_equal. f_equal.
  destruct (any_rows frames) eqn:Ha.
  - clear Ha Hc. induction H as [|df frames [es [Hes ->]] _ IH]; [reflexivity|].
    cbn [flat_map rows]. rewrite IH. f_equal.
    rewrite map_map. clear IH. induction Hes as [|e es He _ IHe]; [reflexivity|].
    cbn [map]. rewrite (assemble_reindex e He), IHe. reflexivity.
  - clear Hc. induction H as [|df frames [es [Hes ->]] _ IH]; [reflexivity|].
    cbn [any_rows existsb rows] in Ha. apply orb_false_iff in Ha.
    destruct Ha as [Ha1 Ha2]. destruct es; [|discriminate].
    cbn [flat_map rows map app]. apply IH. exact Ha2.
Qed.

Lemma flat_map_rows_truthy (frames : list DataFrame) :
  truthy (flat_map rows frames) = any_rows frames.
Proof.
  induction frames as [|df frames IH]; [reflexivity|].
  cbn [flat_map any_rows existsb]. destruct (rows df); [exact IH|reflexivity].
Qed.

Lemma main_flow_spec (env : Env) (use_header_date : bool) (manual : date)
  (files : list upload) :
  match files with
  | [] => main_flow env use_header_date manual files = Ok None
  | _ =>
      exists frames,
        Forall assembled_frame frames
        /\ List.length frames = List.length files
        /\ main_flow env use_header_date manual files
           = Ok (Some (mkDF (if any_rows frames then final_columns else [])
                            (flat_map rows frames)))
  end.
Proof.
  destruct files as [|f rest] eqn:E; [reflexivity|]. rewrite <- E.
  unfold main_flow. replace (truthy files) with true by (rewrite E; reflexivity).
  destruct (process_files_ok env use_header_date manual files (mkFlow None [] [] []))
    as [st [H1 [H2 H3]]]; [constructor|].
  rewrite H1. cbn [bind]. cbn [all_details List.length] in H3.
  assert (Hd : all_details st <> []).
  { intros H. rewrite H in H3. rewrite E in H3. discriminate. }
  replace (truthy (all_details st)) with true
    by (destruct (all_details st); [contradiction|reflexivity]).
  rewrite (concat_assembled _ H2 Hd). cbn [bind].
  exists (all_details st). repeat split; assumption.
Qed.

Lemma assembled_frame_columns (df : DataFrame) :
  assembled_frame df ->
  columns df = if truthy (rows df) then final_columns else [].
Proof. intros [es [_ ->]]. destruct es; reflexivity. Qed.

Lemma assembled_frame_rows (df : DataFrame) :
  assembled_frame df ->
  Forall (fun r => exists e, record_shaped e /\ r = assemble e) (rows df).
Proof.
  intros [es [Hes ->]]. cbn [rows]. apply Forall_map.
  eapply Forall_impl; [|exact Hes]. intros e He. exists e. split; [exact He|reflexivity].
Qed.

(** C3, as amended: whenever at least one record is parsed (from one
    document, or from any document of a batch), the frame has the fourteen
    columns in the order Line, Date Rcvd, Part Prefix, Part Base, Part
    Suffix, Description, Quantity, UOM, Unit Price ($), Total Price, TAMS,
    Source Doc, Ticket Number, Additional Info; when no record is parsed the
    frame has no columns. *)
Theorem assembled_columns_order (env : Env) (use_header_date : bool) (manual : date)
  (files : list upload) :
  final_columns
  = ["Line"; "Date Rcvd"; "Part Prefix"; "Part Base"; "Part Suffix";
     "Description"; "Quantity"; "UOM"; "Unit Price ($)"; "Total Price"; "TAMS";
     "Source Doc"; "Ticket Number"; "Additional Info"]%string
  /\ (exists result,
        main_flow env use_header_date manual files = Ok result
        /\ match result with
           | Some details =>
               columns details
               = if truthy (rows details) then final_columns else []
           | None => files = []
           end)
  /\ (forall txt override_date,
        exists df meta,
          parse_one_text env txt override_date = Ok (df, meta)
          /\ columns df = if truthy (rows df) then final_columns else []).
Proof.
  split; [reflexivity|]. split.
  - pose proof (main_flow_spec env use_header_date manual files) as H.
    destruct files as [|f rest].
    + exists None. split; [exact H|reflexivity].
    + destruct H as [frames [_ [_ H]]]. eexists. split; [exact H|].
      cbn [columns rows]. rewrite flat_map_rows_truthy. reflexivity.
  - intros txt od. destruct (parse_one_text_frame env txt od) as [df [meta [Hp Hf]]].
    exists df, meta. split; [exact Hp|]. apply assembled_frame_columns. exact Hf.
Qed.

(** C3 fails as stated: a batch with one record has Source Doc before
    Ticket Number and Additional Info, not after them as §6 lists; and a
    non-empty batch without any record has no columns at all. *)
Lemma columns_differ_from_section6 :
  (exists details,
     main_flow sample_env true sample_date [upload_with_record] = Ok (Some details)
     /\ List.length (rows details) = 1%nat
     /\ columns details <> columns_as_specified)
  /\ (exists details,
        main_flow sample_env true sample_date [upload_without_record]
        = Ok (Some details)
        /\ columns details = []
        /\ columns details <> columns_as_specified).
Proof.
  split; eexists; (split; [vm_compute; reflexivity|]); split;
    try reflexivity; cbn [columns]; discriminate.
Qed.

(** ** Decoding (C10) *)

(** C10: latin-1 decodes every byte sequence (one character per byte), so
    the decoding loop always binds the text, whatever the variable held
    before: the text is the decoding of the uploaded bytes by the first of
    utf-8-sig, utf-8 and latin-1 that accepts them. The failure case cannot
    happen, and this decoded text is what the parser receives. *)
Theorem decoding_always_succeeds (env : Env) (use_header_date : bool)
  (manual : date) (st : flow) (f : upload) :
  decode (file_bytes f) Latin1 = Some (map Byte.to_N (file_bytes f))
  /\ exists t df meta badge,
       decode_loop encodings (file_bytes f) (txt_var st) = Some t
       /\ (decode (file_bytes f) Utf8Sig = Some t
           \/ (decode (file_bytes f) Utf8Sig = None
               /\ decode (file_bytes f) Utf8 = Some t)
           \/ (decode (file_bytes f) Utf8Sig = None
               /\ decode (file_bytes f) Utf8 = None
               /\ decode (file_bytes f) Latin1 = Some t))
       /\ decode_loop encodings (file_bytes f) None = Some t
       /\ parse_one_text env t
            (if use_header_date then None
             else Some (strftime_iso (pads_year env) manual)) = Ok (df, meta)
       /\ process_file env use_header_date manual st f
          = Ok (mkFlow (Some t) (all_details st ++ [df])
                       (doc_badges st ++ [badge])
                       (meta_dates st ++ [meta_date_rcvd meta])).
Proof.
  split; [reflexivity|].
  destruct (process_file_ok env use_header_date manual st f)
    as [t [df [meta [badge [H1 [H2 [_ H3]]]]]]].
  exists t, df, meta, badge.
  assert (Ha : decode_loop encodings (file_bytes f) (txt_var st) = Some t).
  { destruct (decode_loop_some (file_bytes f) (txt_var st)) as [t' [Ha Hb]].
    rewrite Ha. rewrite <- Hb. exact H1. }
  split; [exact Ha|]. split; [|split; [exact H1|split; [exact H2|exact H3]]].
  revert H1. unfold encodings. cbn [decode_loop].
  destruct (decode (file_bytes f) Utf8Sig) as [u|]; [intros H; left; exact H|].
  destruct (decode (file_bytes f) Utf8) as [u|].
  - intros H. right. left. split; [reflexivity|exact H].
  - intros H. right. right. repeat split. exact H.
Qed.

(** ** Scenario 1 (C1) *)

Lemma line_at_nth_error (cl : list str) (k : nat) (ln : str) :
  nth_error cl k = Some ln -> line_at cl (Z.of_nat k) = ln.
Proof.
  intros H. unfold line_at. rewrite Nat2Z.id. apply nth_error_nth. exact H.
Qed.

(** C1, as amended: in every document whose cleaned lines contain the
    header line "12 AB 1234 C 10 EA 5.00 50.00" immediately followed by the
    detail line "987 Widget kit I V TAMS1 . X" (an all-digit ticket number,
    as the parser requires), the parser emits a record with Line "12", Part
    Prefix "AB", Part Base "1234", Part Suffix "C", Quantity 10, UOM "EA",
    Unit Price 5, Total Price 50, Description "Widget kit", TAMS "TAMS1",
    Ticket Number "987", Additional Info "X", whatever lines surround the
    pair; its Date Rcvd and Source Doc are those of the document. *)
Theorem scenario1_numeric_record (env : Env) (txt : str)
  (override_date : option str) (k : nat) :
  nth_error (clean_lines txt) k = Some (lit "12 AB 1234 C 10 EA 5.00 50.00") ->
  nth_error (clean_lines txt) (S k) = Some (lit "987 Widget kit I V TAMS1 . X") ->
  exists df meta,
    parse_one_text env txt override_date = Ok (df, meta)
    /\ columns df = final_columns
    /\ In [("Line"%string, CStr (lit "12"));
           ("Date Rcvd"%string, CStr (meta_date_rcvd meta));
           ("Part Prefix"%string, CStr (lit "AB"));
           ("Part Base"%string, CStr (lit "1234"));
           ("Part Suffix"%string, CStr (lit "C"));
           ("Description"%string, CStr (lit "Widget kit"));
           ("Quantity"%string, CNum (10 # 1));
           ("UOM"%string, CStr (lit "EA"));
           ("Unit Price ($)"%string, CNum (5 # 1));
           ("Total Price"%string, CNum (50 # 1));
           ("TAMS"%string, CStr (lit "TAMS1"));
           ("Source Doc"%string, CStr (or_empty (meta_doc_no meta)));
           ("Ticket Number"%string, CStr (lit "987"));
           ("Additional Info"%string, CStr (lit "X"))]
          (rows df).
Proof.
  intros Hh Hd.
  set (cl := clean_lines txt) in *.
  assert (Hlen : Z.of_nat k < len cl - 1).
  { assert (H : (S k < List.length cl)%nat)
      by (apply nth_error_Some; rewrite Hd; discriminate).
    unfold len. lia. }
  pose proof (line_at_nth_error cl k _ Hh) as Lh.
  pose proof (line_at_nth_error cl (S k) _ Hd) as Ld.
  replace (Z.of_nat (S k)) with (Z.of_nat k + 1) in Ld by lia.
  assert (Ha : accepted_marker cl (Z.of_nat k) = Some 3).
  { unfold accepted_marker. rewrite Lh, Ld. vm_compute. reflexivity. }
  assert (Hprev : 0 < Z.of_nat k -> accepted_marker cl (Z.of_nat k - 1) = None).
  { intros _. unfold accepted_marker.
    replace (Z.of_nat k - 1 + 1) with (Z.of_nat k) by lia. rewrite Lh.
    assert (Hm : marker_of (tokenize (lit "12 AB 1234 C 10 EA 5.00 50.00")) = None)
      by (vm_compute; reflexivity).
    rewrite Hm.
    match goal with |- (if ?c then _ else _) = _ => destruct c; reflexivity end. }
  destruct (parse_one_text_spec env txt override_date)
    as [d [es [_ [Hs [_ [_ Hp]]]]]].
  fold cl in Hs, Hp.
  destruct (scan_emits cl (extract_shipping_doc_number txt) d (List.length cl)
              0 [] (Z.of_nat k) 3) as [es' [Hs' Hin]];
    [lia|exact Hlen|unfold len; lia|exact Ha|exact Hprev|].
  rewrite Hs in Hs'. injection Hs' as <-.
  eexists. eexists. split; [exact Hp|]. cbn [columns rows meta_date_rcvd meta_doc_no].
  split; [destruct es; [contradiction|reflexivity]|].
  rewrite Lh, Ld in Hin.
  apply (in_map assemble) in Hin. exact Hin.
Qed.

(** The pair inside a longer document, after two label lines and before a
    closing line. *)
Lemma scenario1_numeric_record_witness :
  nth_error (clean_lines labelled_doc) 2
  = Some (lit "12 AB 1234 C 10 EA 5.00 50.00")
  /\ List.length (clean_lines labelled_doc) = 5%nat
  /\ exists df,
       parse_one_text sample_env labelled_doc None
       = Ok (df, mkMeta (Some (lit "AB_12-34")) (lit "2024-03-05"))
       /\ In [("Line"%string, CStr (lit "12"));
              ("Date Rcvd"%string, CStr (lit "2024-03-05"));
              ("Part Prefix"%string, CStr (lit "AB"));
              ("Part Base"%string, CStr (lit "1234"));
              ("Part Suffix"%string, CStr (lit "C"));
              ("Description"%string, CStr (lit "Widget kit"));
              ("Quantity"%string, CNum (10 # 1));
              ("UOM"%string, CStr (lit "EA"));
              ("Unit Price ($)"%string, CNum (5 # 1));
              ("Total Price"%string, CNum (50 # 1));
              ("TAMS"%string, CStr (lit "TAMS1"));
              ("Source Doc"%string, CStr (lit "AB_12-34"));
              ("Ticket Number"%string, CStr (lit "987"));
              ("Additional Info"%string, CStr (lit "X"))]
             (rows df).
Proof.
  split; [vm_compute; reflexivity|]. split; [vm_compute; reflexivity|].
  destruct (scenario1_numeric_record sample_env labelled_doc None 2)
    as [df [meta [Hp [_ Hin]]]].
  - vm_compute. reflexivity.
  - vm_compute. reflexivity.
  - assert (Hm : meta = mkMeta (Some (lit "AB_12-34")) (lit "2024-03-05")).
    { destruct (parse_one_text_spec sample_env labelled_doc None)
        as [d [es [Hd [_ [_ [_ Hq]]]]]].
      rewrite Hq in Hp. injection Hp as _ <-.
      vm_compute in Hd. injection Hd as <-. vm_compute. reflexivity. }
    subst meta. exists df. split; [exact Hp|exact Hin].
Defined.

(** C1 fails as stated: the ticket "T987" is not purely digits, so the pair
    is rejected and the document yields no record. *)
Lemma scenario1_emits_no_record :
  isdigit (lit "T987") = false
  /\ parse_one_text sample_env scenario1 None
     = Ok (mkDF [] [], mkMeta None (lit "2026-11-04")).
Proof. split; vm_compute; reflexivity. Qed.

(** ** Date normalization (C4) *)

Lemma N_below (P : N -> Prop) (n : nat) :
  (forall i, (i < n)%nat -> P (N.of_nat i)) ->
  forall a, (a < N.of_nat n)%N -> P a.
Proof.
  intros H a Ha. rewrite <- (N2Nat.id a). apply H. lia.
Qed.

(** Case analysis on a number below a bound, each case by computation. *)
Ltac below_cases bound :=
  match goal with
  | |- forall a, (a < _)%N -> @?P a => apply (N_below P bound)
  end;
  let i := fresh "i" in
  let Hi := fresh "Hi" in
  intros i Hi;
  repeat first [ exfalso; lia
               | destruct i as [|i]; [vm_compute; try reflexivity|] ].

Lemma decimal_value_digit :
  forall a, (a < 10)%N -> decimal_value (digit_cp a) = Some a.
Proof. below_cases 10%nat. Qed.

Lemma isspace_digit :
  forall a, (a < 10)%N -> isspace_cp (digit_cp a) = false.
Proof. below_cases 10%nat. Qed.

Lemma digits4_value (y : N) :
  (y <= 9999)%N ->
  (1000 * (y / 1000 mod 10) + 100 * (y / 100 mod 10) + 10 * (y / 10 mod 10)
   + y mod 10 = y)%N.
Proof.
  intros Hy.
  pose proof (N.div_mod y 10 ltac:(lia)) as H1.
  pose proof (N.div_mod (y / 10) 10 ltac:(lia)) as H2.
  pose proof (N.div_mod (y / 100) 10 ltac:(lia)) as H3.
  pose proof (N.mod_lt y 10 ltac:(lia)).
  pose proof (N.mod_lt (y / 10) 10 ltac:(lia)).
  pose proof (N.mod_lt (y / 100) 10 ltac:(lia)).
  replace (y / 10 / 10)%N with (y / 100)%N in H2
    by (rewrite N.Div0.div_div; reflexivity).
  replace (y / 100 / 10)%N with (y / 1000)%N in H3
    by (rewrite N.Div0.div_div; reflexivity).
  assert (y / 1000 < 10)%N.
  { apply N.Div0.div_lt_upper_bound; lia. }
  rewrite (N.mod_small (y / 1000) 10) by assumption.
  lia.
Qed.

Lemma re_Y_pad4 {A : Type} (y : N) (rest : str) (k : N -> str -> option A) :
  (y <= 9999)%N -> re_Y (pad4 y ++ rest) k = k y rest.
Proof.
  intros Hy. unfold re_Y, pad4, digits4. cbn [map app]. unfold Re.digit.
  rewrite !decimal_value_digit by (apply N.mod_lt; lia).
  rewrite digits4_value by exact Hy. reflexivity.
Qed.

Lemma re_Y_not_four_digits {A : Type} (c1 c2 : N) (rest : str)
  (k : N -> str -> option A) :
  re_Y (c1 :: c2 :: slash :: rest) k = None.
Proof.
  unfold re_Y, Re.digit.
  destruct (decimal_value c1); [|reflexivity].
  destruct (decimal_value c2); reflexivity.
Qed.

Lemma re_m_sep {A : Type} (sep : N) (rest : str) (K : N -> str -> option A) :
  sep = slash \/ sep = dash ->
  forall a, (a < 100)%N ->
    re_m (pad2 a ++ sep :: rest) (fun v s1 => Re.char sep s1 (K v))
    = if between 1 12 a then K a rest else None.
Proof.
  intros [-> | ->]; below_cases 100%nat;
    match goal with
    | |- context [K ?v rest] => destruct (K v rest); reflexivity
    end.
Qed.

Lemma re_d_sep {A : Type} (rest : str) (K : N -> str -> option A) :
  forall a, (a < 100)%N ->
    re_d (pad2 a ++ slash :: rest) (fun v s1 => Re.char slash s1 (K v))
    = if between 1 31 a then K a rest else None.
Proof.
  below_cases 100%nat;
    match goal with
    | |- context [K ?v rest] => destruct (K v rest); reflexivity
    end.
Qed.

Lemma re_d_end {A : Type} (F : N -> str -> A) :
  forall a, (a < 100)%N -> between 1 31 a = true ->
    re_d (pad2 a) (fun v s => Some (F v s)) = Some (F a []).
Proof.
  below_cases 100%nat; intros H; try reflexivity; discriminate H.
Qed.

Lemma days_in_month_le_31 (y m : N) : (days_in_month y m <= 31)%N.
Proof.
  unfold days_in_month.
  repeat match goal with
         | |- context [if ?b then _ else _] => destruct b
         end; lia.
Qed.

Lemma valid_date_bounds (y m d : N) :
  valid_date y m d = true ->
  (1 <= y <= 9999)%N /\ between 1 12 m = true /\ between 1 31 d = true
  /\ (m < 100)%N /\ (d < 100)%N.
Proof.
  unfold valid_date, between. intros H.
  repeat (apply andb_true_iff in H; destruct H as [H ?]).
  repeat match goal with
         | H : (_ <=? _)%N = true |- _ => apply N.leb_le in H
         end.
  pose proof (days_in_month_le_31 y m).
  repeat split; try lia; apply andb_true_iff; split; apply N.leb_le; lia.
Qed.

Lemma strip_unchanged (s : str) :
  match s with c :: _ => isspace_cp c = false | [] => True end ->
  match rev s with c :: _ => isspace_cp c = false | [] => True end ->
  strip s = s.
Proof.
  intros H1 H2. unfold strip, lstrip, rstrip.
  assert (E1 : dropwhile isspace_cp s = s).
  { destruct s as [|c s']; [reflexivity|]. cbn [dropwhile]. rewrite H1. reflexivity. }
  rewrite E1.
  assert (E2 : dropwhile isspace_cp (rev s) = rev s).
  { destruct (rev s) as [|c r]; [reflexivity|]. cbn [dropwhile]. rewrite H2. reflexivity. }
  rewrite E2. apply rev_involutive.
Qed.

Lemma strip_written (a b : N) (mid : str) :
  strip (digit_cp (a mod 10) :: mid ++ [digit_cp (b mod 10)])
  = digit_cp (a mod 10) :: mid ++ [digit_cp (b mod 10)].
Proof.
  apply strip_unchanged.
  - apply isspace_digit. apply N.mod_lt. lia.
  - cbn [rev]. rewrite rev_app_distr. cbn [rev app].
    apply isspace_digit. apply N.mod_lt. lia.
Qed.

Lemma strip_ymd (sep y m d : N) : strip (write_ymd sep y m d) = write_ymd sep y m d.
Proof.
  unfold write_ymd, pad4, pad2, digits4. cbn [map app].
  match goal with
  | |- strip (?c :: ?a :: ?b :: ?e :: ?f :: ?g :: ?h :: ?i :: ?j :: [?z]) = _ =>
      apply (strip_written (y / 1000) d [a; b; e; f; g; h; i; j])
  end.
Qed.

Lemma strip_two_two_four (a b y : N) :
  strip (pad2 a ++ slash :: pad2 b ++ slash :: pad4 y)
  = pad2 a ++ slash :: pad2 b ++ slash :: pad4 y.
Proof.
  unfold pad4, pad2, digits4. cbn [map app].
  match goal with
  | |- strip (?c :: ?a1 :: ?b1 :: ?e :: ?f :: ?g :: ?h :: ?i :: ?j :: [?z]) = _ =>
      apply (strip_written (a / 10) y [a1; b1; e; f; g; h; i; j])
  end.
Qed.

Lemma strptime_ymd_same (sep y m d : N) :
  sep = slash \/ sep = dash -> valid_date y m d = true ->
  strptime (write_ymd sep y m d) (Ymd sep) = Ok (mkdate y m d).
Proof.
  intros Hsep Hv. destruct (valid_date_bounds _ _ _ Hv) as [Hy [Hm [Hd [Hm' Hd']]]].
  unfold strptime, format_match, write_ymd.
  rewrite re_Y_pad4 by lia. cbn [Re.char]. rewrite N.eqb_refl.
  rewrite (re_m_sep sep (pad2 d)
             (fun v s4 => re_d s4 (fun d0 s5 => Some (y, v, d0, s5))) Hsep m Hm').
  rewrite Hm.
  rewrite (re_d_end (fun d0 s5 => (y, m, d0, s5)) d Hd' Hd).
  cbn [truthy]. rewrite Hv. reflexivity.
Qed.

Lemma strptime_ymd_other (sep sep' y m d : N) :
  (y <= 9999)%N -> (sep' =? sep)%N = false ->
  strptime (write_ymd sep' y m d) (Ymd sep) = Raise ValueError.
Proof.
  intros Hy Hne. unfold strptime, format_match, write_ymd.
  rewrite re_Y_pad4 by lia. cbn [Re.char]. rewrite Hne. reflexivity.
Qed.

Lemma strptime_ymd_short (sep a : N) (rest : str) :
  strptime (pad2 a ++ slash :: rest) (Ymd sep) = Raise ValueError.
Proof.
  unfold strptime, format_match, pad2. cbn [app].
  rewrite re_Y_not_four_digits. reflexivity.
Qed.

Lemma format_match_dmy (a b y : N) :
  (a < 100)%N -> (b < 100)%N -> (y <= 9999)%N ->
  format_match Dmy (pad2 a ++ slash :: pad2 b ++ slash :: pad4 y)
  = if between 1 31 a && between 1 12 b then Some (y, b, a, []) else None.
Proof.
  intros Ha Hb Hy. unfold format_match.
  rewrite (re_d_sep (pad2 b ++ slash :: pad4 y)
             (fun v s2 => re_m s2 (fun m s3 => Re.char slash s3 (fun s4 =>
                re_Y s4 (fun y0 s5 => Some (y0, m, v, s5))))) a Ha).
  destruct (between 1 31 a); [|reflexivity].
  rewrite (re_m_sep slash (pad4 y)
             (fun v s4 => re_Y s4 (fun y0 s5 => Some (y0, v, a, s5)))
             (or_introl eq_refl) b Hb).
  destruct (between 1 12 b); [|reflexivity].
  rewrite <- (app_nil_r (pad4 y)). rewrite re_Y_pad4 by lia. reflexivity.
Qed.

Lemma format_match_mdy (a b y : N) :
  (a < 100)%N -> (b < 100)%N -> (y <= 9999)%N ->
  format_match Mdy (pad2 a ++ slash :: pad2 b ++ slash :: pad4 y)
  = if between 1 12 a && between 1 31 b then Some (y, a, b, []) else None.
Proof.
  intros Ha Hb Hy. unfold format_match.
  rewrite (re_m_sep slash (pad2 b ++ slash :: pad4 y)
             (fun v s2 => re_d s2 (fun d s3 => Re.char slash s3 (fun s4 =>
                re_Y s4 (fun y0 s5 => Some (y0, v, d, s5)))))
             (or_introl eq_refl) a Ha).
  destruct (between 1 12 a); [|reflexivity].
  rewrite (re_d_sep (pad4 y)
             (fun v s4 => re_Y s4 (fun y0 s5 => Some (y0, a, v, s5))) b Hb).
  destruct (between 1 31 b); [|reflexivity].
  rewrite <- (app_nil_r (pad4 y)). rewrite re_Y_pad4 by lia. reflexivity.
Qed.

(** Day first: the first field is the day, the second the month. *)
Lemma strptime_dmy (a b y : N) :
  (a < 100)%N -> (b < 100)%N -> (y <= 9999)%N ->
  strptime (pad2 a ++ slash :: pad2 b ++ slash :: pad4 y) Dmy
  = if valid_date y b a then Ok (mkdate y b a) else Raise ValueError.
Proof.
  intros Ha Hb Hy. unfold strptime. rewrite format_match_dmy by assumption.
  destruct (valid_date y b a) eqn:Hv.
  - destruct (valid_date_bounds _ _ _ Hv) as [_ [H1 [H2 _]]].
    rewrite H1, H2. cbn [andb truthy]. rewrite Hv. reflexivity.
  - destruct (between 1 31 a && between 1 12 b); [|reflexivity].
    cbn [truthy]. rewrite Hv. reflexivity.
Qed.

(** Month first: the first field is the month, the second the day. *)
Lemma strptime_mdy (a b y : N) :
  (a < 100)%N -> (b < 100)%N -> (y <= 9999)%N ->
  strptime (pad2 a ++ slash :: pad2 b ++ slash :: pad4 y) Mdy
  = if valid_date y a b then Ok (mkdate y a b) else Raise ValueError.
Proof.
  intros Ha Hb Hy. unfold strptime. rewrite format_match_mdy by assumption.
  destruct (valid_date y a b) eqn:Hv.
  - destruct (valid_date_bounds _ _ _ Hv) as [_ [H1 [H2 _]]].
    rewrite H1, H2. cbn [andb truthy]. rewrite Hv. reflexivity.
  - destruct (between 1 12 a && between 1 31 b); [|reflexivity].
    cbn [truthy]. rewrite Hv. reflexivity.
Qed.

Lemma fmt_Y_pad4 (pads : bool) (y : N) :
  pads = true \/ (1000 <= y <= 9999)%N -> fmt_Y pads y = pad4 y.
Proof.
  intros [-> | Hy]; [reflexivity|]. unfold fmt_Y. destruct pads; [reflexivity|].
  unfold pad4, digits4. cbn [dropwhile].
  assert (H : (y / 1000 mod 10 =? 0)%N = false).
  { apply N.eqb_neq. assert (1 <= y / 1000)%N by (apply N.div_le_lower_bound; lia).
    assert (y / 1000 < 10)%N by (apply N.Div0.div_lt_upper_bound; lia).
    rewrite N.mod_small by assumption. lia. }
  rewrite N.eqb_sym in H. rewrite H. reflexivity.
Qed.

Lemma strftime_iso_written (pads : bool) (y m d : N) :
  pads = true \/ (1000 <= y <= 9999)%N ->
  strftime_iso pads (mkdate y m d) = iso y m d.
Proof.
  intros H. unfold strftime_iso, iso. cbn [year month day].
  rewrite fmt_Y_pad4 by exact H. reflexivity.
Qed.

(** C4, as amended: for every valid date (year 1000 to 9999, or any year
    from 1 when the C library zero-pads [%Y]) date normalization turns its
    YYYY/MM/DD, YYYY-MM-DD and DD/MM/YYYY forms into its YYYY-MM-DD form; a
    two-digit/two-digit/four-digit text is read day first whenever that
    reading is a valid date, so the MM/DD/YYYY form normalizes to the
    month-first date only when its day-first reading is not a date. *)
Theorem normalize_date_str_forms (env : Env) (y m d : N) :
  valid_date y m d = true ->
  pads_year env = true \/ (1000 <= y)%N ->
  normalize_date_str env (write_ymd slash y m d) = Ok (Some (iso y m d))
  /\ normalize_date_str env (write_ymd dash y m d) = Ok (Some (iso y m d))
  /\ normalize_date_str env (write_dmy y m d) = Ok (Some (iso y m d))
  /\ normalize_date_str env (write_mdy y m d)
     = Ok (Some (if valid_date y d m then iso y d m else iso y m d)).
Proof.
  intros Hv Hpad.
  destruct (valid_date_bounds _ _ _ Hv) as [Hy [_ [_ [Hm Hd]]]].
  assert (Hp : pads_year env = true \/ (1000 <= y <= 9999)%N)
    by (destruct Hpad; [left; assumption|right; lia]).
  unfold normalize_date_str, date_formats.
  split; [|split; [|split]].
  - rewrite strip_ymd. cbn [normalize_loop].
    rewrite strptime_ymd_same by (try left; auto).
    rewrite strftime_iso_written by exact Hp. reflexivity.
  - rewrite strip_ymd. cbn [normalize_loop].
    rewrite (strptime_ymd_other slash dash) by (try reflexivity; lia).
    rewrite strptime_ymd_same by (try right; auto).
    rewrite strftime_iso_written by exact Hp. reflexivity.
  - unfold write_dmy. rewrite strip_two_two_four. cbn [normalize_loop].
    rewrite !strptime_ymd_short. rewrite strptime_dmy by (try assumption; lia).
    rewrite Hv. rewrite strftime_iso_written by exact Hp. reflexivity.
  - unfold write_mdy. rewrite strip_two_two_four. cbn [normalize_loop].
    rewrite !strptime_ymd_short. rewrite strptime_dmy by (try assumption; lia).
    destruct (valid_date y d m).
    + rewrite strftime_iso_written by exact Hp. reflexivity.
    + rewrite strptime_mdy by (try assumption; lia). rewrite Hv.
      rewrite strftime_iso_written by exact Hp. reflexivity.
Qed.

Lemma normalize_date_str_forms_witness :
  valid_date 2024 3 25 = true
  /\ (1000 <= 2024)%N
  /\ normalize_date_str sample_env (lit "2024/03/25") = Ok (Some (lit "2024-03-25"))
  /\ normalize_date_str sample_env (lit "25/03/2024") = Ok (Some (lit "2024-03-25"))
  /\ normalize_date_str sample_env (lit "03/25/2024") = Ok (Some (lit "2024-03-25")).
Proof.
  split; [reflexivity|]. split; [lia|].
  destruct (normalize_date_str_forms sample_env 2024 3 25)
    as [H1 [_ [H3 H4]]]; [reflexivity|right; lia|].
  split; [exact H1|]. split; [exact H3|exact H4].
Defined.

(** Below year 1000 the output depends on the C library: without zero
    padding of [%Y] the year loses its leading zeros. *)
Lemma year_below_1000_unpadded :
  normalize_date_str (mkEnv sample_date false) (lit "0005/03/05")
  = Ok (Some (lit "5-03-05"))
  /\ normalize_date_str (mkEnv sample_date true) (lit "0005/03/05")
     = Ok (Some (lit "0005-03-05")).
Proof. split; vm_compute; reflexivity. Qed.

(** C4 fails as stated: "03/05/2024", the month-first writing of 5 March
    2024, normalizes to 3 May 2024, because the day-first format is tried
    before the month-first one. *)
Lemma month_first_date_read_day_first :
  write_mdy 2024 3 5 = lit "03/05/2024"
  /\ iso 2024 3 5 = lit "2024-03-05"
  /\ normalize_date_str sample_env (write_mdy 2024 3 5)
     = Ok (Some (lit "2024-05-03"))
  /\ normalize_date_str sample_env (write_mdy 2024 3 5)
     <> Ok (Some (iso 2024 3 5)).
Proof.
  repeat split; try reflexivity. vm_compute. discriminate.
Qed.

(** * Further properties of the code *)

(** ** The tokenizer *)

Lemma forallb_rev_true {A : Type} (p : A -> bool) (l : list A) :
  forallb p l = true -> forallb p (rev l) = true.
Proof.
  intros H. apply forallb_forall. intros x Hx. apply In_rev in Hx.
  revert x Hx. apply forallb_forall. exact H.
Qed.

Lemma truthy_rev_cons {A : Type} (x : A) (l : list A) : truthy (rev (x :: l)) = true.
Proof. cbn [rev]. destruct (rev l); reflexivity. Qed.

Lemma split_from_tokens (s : str) :
  forall cur, forallb (fun c => negb (isspace_cp c)) cur = true ->
    Forall (fun t => clean_token t = true) (split_from s cur).
Proof.
  induction s as [|c s IH]; intros cur Hcur; cbn [split_from].
  - destruct cur as [|x cur]; [constructor|]. constructor; [|constructor].
    unfold clean_token. rewrite truthy_rev_cons. cbn [andb].
    apply forallb_rev_true. exact Hcur.
  - destruct (isspace_cp c) eqn:Hc.
    + destruct cur as [|x cur]; [apply IH; reflexivity|].
      constructor; [|apply IH; reflexivity].
      unfold clean_token. rewrite truthy_rev_cons. cbn [andb].
      apply forallb_rev_true. exact Hcur.
    + apply IH. cbn [forallb]. rewrite Hc. exact Hcur.
Qed.

Lemma split_from_nonempty (s : str) :
  forall cur, cur <> [] -> split_from s cur <> [].
Proof.
  induction s as [|c s IH]; intros cur Hcur; cbn [split_from].
  - destruct cur; [contradiction|discriminate].
  - destruct (isspace_cp c).
    + destruct cur; [contradiction|discriminate].
    + apply IH. discriminate.
Qed.

Lemma split_replace_form_feed (s : str) :
  forall cur, split_from (replace_cp form_feed (lit " ") s) cur = split_from s cur.
Proof.
  unfold replace_cp. induction s as [|c s IH]; intros cur; [reflexivity|].
  cbn [flat_map]. destruct (c =? form_feed)%N eqn:E.
  - apply N.eqb_eq in E. subst c.
    change (lit " ") with [32%N]. cbn [app split_from].
    change (isspace_cp 32) with true. change (isspace_cp form_feed) with true.
    cbn iota. rewrite !IH. reflexivity.
  - cbn [app split_from]. destruct (isspace_cp c); rewrite !IH; reflexivity.
Qed.

Lemma split_lstrip (s : str) : split_from (lstrip s) [] = split_from s [].
Proof.
  unfold lstrip. induction s as [|c s IH]; [reflexivity|].
  cbn [dropwhile split_from]. destruct (isspace_cp c) eqn:Hc; [exact IH|].
  cbn [split_from]. rewrite Hc. reflexivity.
Qed.

Lemma split_from_spaces (ws : str) :
  forallb isspace_cp ws = true ->
  forall cur, split_from ws cur = match cur with [] => [] | _ => [rev cur] end.
Proof.
  induction ws as [|c ws IH]; intros H cur; [reflexivity|].
  cbn [forallb] in H. apply andb_true_iff in H. destruct H as [Hc Hws].
  cbn [split_from]. rewrite Hc. rewrite (IH Hws []). reflexivity.
Qed.

Lemma split_app_spaces (s ws : str) :
  forallb isspace_cp ws = true ->
  forall cur, split_from (s ++ ws) cur = split_from s cur.
Proof.
  intros Hws. induction s as [|c s IH]; intros cur.
  - cbn [app split_from]. apply split_from_spaces. exact Hws.
  - cbn [app split_from]. destruct (isspace_cp c); rewrite !IH; reflexivity.
Qed.

Lemma rstrip_decompose (l : str) :
  exists ws, forallb isspace_cp ws = true /\ l = rstrip l ++ ws.
Proof.
  unfold rstrip. induction l as [|x l IH] using rev_ind.
  - exists []. split; reflexivity.
  - rewrite rev_app_distr. cbn [rev app dropwhile].
    destruct (isspace_cp x) eqn:Hx.
    + destruct IH as [ws [Hws Hl]]. exists (ws ++ [x]). split.
      * rewrite forallb_app, Hws. cbn [forallb andb]. rewrite Hx. reflexivity.
      * rewrite app_assoc, <- Hl. reflexivity.
    + exists []. split; [reflexivity|].
      cbn [rev]. rewrite rev_involutive, app_nil_r. reflexivity.
Qed.

Lemma split_strip (s : str) : split (strip s) = split s.
Proof.
  unfold split, strip.
  destruct (rstrip_decompose (lstrip s)) as [ws [Hws Hl]].
  rewrite <- (split_lstrip s).
  rewrite <- (split_app_spaces (rstrip (lstrip s)) ws Hws []).
  rewrite <- Hl. reflexivity.
Qed.

Lemma filter_all_true {A : Type} (p : A -> bool) (l : list A) :
  Forall (fun x => p x = true) l -> filter p l = l.
Proof.
  induction 1 as [|x l Hx _ IH]; [reflexivity|].
  cbn [filter]. rewrite Hx, IH. reflexivity.
Qed.

Lemma split_tokens_clean (s : str) :
  Forall (fun t => clean_token t = true) (split s).
Proof. apply split_from_tokens. reflexivity. Qed.

(** X1: [tokenize] is Python's plain [line.split()]: replacing form feeds,
    stripping and dropping empty strings change nothing, because a form feed
    is itself whitespace and [split] yields no empty token. *)
Theorem tokenize_is_split (line : str) : tokenize line = split line.
Proof.
  unfold tokenize. rewrite split_strip. unfold split at 1.
  rewrite split_replace_form_feed. fold (split line).
  apply filter_all_true. eapply Forall_impl; [|apply split_tokens_clean].
  intros t H. unfold clean_token in H. apply andb_true_iff in H. apply H.
Qed.

(** X2: every token is non-empty and holds no whitespace character (so no
    form feed, tab or no-break space either); a line of whitespace only has
    no tokens. *)
Theorem tokenize_tokens_clean (line : str) :
  Forall (fun t => t <> [] /\ Forall (fun c => isspace_cp c = false) t)
         (tokenize line)
  /\ tokenize (filter isspace_cp line) = [].
Proof.
  rewrite tokenize_is_split. split.
  - eapply Forall_impl; [|apply split_tokens_clean].
    intros t H. unfold clean_token in H. apply andb_true_iff in H.
    destruct H as [H1 H2]. split.
    + intros ->. discriminate.
    + apply Forall_forall. intros c Hc.
      rewrite forallb_forall in H2. specialize (H2 c Hc).
      destruct (isspace_cp c); [discriminate|reflexivity].
  - rewrite tokenize_is_split. unfold split.
    rewrite split_from_spaces; [reflexivity|].
    apply forallb_forall. intros c Hc. apply filter_In in Hc. apply Hc.
Qed.

Lemma lstrip_head (s : str) (c : N) (r : str) :
  lstrip s = c :: r -> isspace_cp c = false.
Proof.
  unfold lstrip. induction s as [|x s IH]; [discriminate|].
  cbn [dropwhile]. destruct (isspace_cp x) eqn:Hx; [exact IH|].
  intros H. injection H as <- _. exact Hx.
Qed.

Lemma strip_head (s : str) :
  truthy (strip s) = true ->
  exists c r, strip s = c :: r /\ isspace_cp c = false.
Proof.
  unfold strip. intros H.
  destruct (rstrip_decompose (lstrip s)) as [ws [Hws Hl]].
  destruct (rstrip (lstrip s)) as [|c r] eqn:E; [discriminate|].
  exists c, r. split; [reflexivity|].
  destruct (lstrip s) as [|c' r'] eqn:El; [discriminate|].
  cbn [app] in Hl. injection Hl as -> _. eapply lstrip_head. exact El.
Qed.

(** X3: no cleaned line is blank for the tokenizer: every line the scan
    looks at has at least one token, so a line is only ever skipped because
    of what its first token is. *)
Theorem cleaned_lines_have_tokens (txt_content line : str) :
  In line (clean_lines txt_content) -> tokenize line <> [].
Proof.
  unfold clean_lines. intros H. apply in_map_iff in H.
  destruct H as [ln [<- Hln]]. apply filter_In in Hln. destruct Hln as [_ Ht].
  destruct (strip_head ln Ht) as [c [r [E Hc]]]. rewrite E.
  rewrite tokenize_is_split. unfold split, replace_cp. cbn [flat_map].
  assert (Hne : (c =? form_feed)%N = false).
  { destruct (c =? form_feed)%N eqn:E2; [|reflexivity].
    apply N.eqb_eq in E2. subst c. discriminate Hc. }
  rewrite Hne. cbn [app split_from]. rewrite Hc.
  apply split_from_nonempty. discriminate.
Qed.

Lemma cleaned_lines_have_tokens_witness :
  In (lit "12 AB 1234 C 10 EA 5.00 50.00") (clean_lines scenario1)
  /\ tokenize (lit "12 AB 1234 C 10 EA 5.00 50.00") <> [].
Proof.
  assert (H : In (lit "12 AB 1234 C 10 EA 5.00 50.00") (clean_lines scenario1)).
  { vm_compute. left. reflexivity. }
  split; [exact H|].
  exact (cleaned_lines_have_tokens scenario1 _ H).
Defined.


(** ** What the marker locator returns *)

Lemma qualifying_sound (tok : str) (l : list str) (m : Z) :
  qualifying tok l = Some m ->
  0 <= m
  /\ nth_error l (Z.to_nat m) = Some tok
  /\ nth_error l (S (Z.to_nat m)) = Some (lit "V")
  /\ (forall j, (j < Z.to_nat m)%nat -> nth_error l j <> Some tok).
Proof.
  unfold qualifying. destruct (first_pos tok l) as [i|] eqn:E; [|discriminate].
  destruct (nth_error l (S i)) as [v|] eqn:Ev; [|discriminate].
  destruct (str_eqb v (lit "V")) eqn:Hv; [|discriminate].
  intros H. injection H as <-. rewrite Nat2Z.id.
  apply str_eqb_eq in Hv. subst v. apply first_pos_some in E.
  destruct E as [E1 E2]. repeat split; try assumption. lia.
Qed.

Lemma marker_of_sound (parts2 : list str) (m : Z) :
  marker_of parts2 = Some m ->
  0 <= m
  /\ exists tok,
       (tok = lit "I" \/ tok = lit "S")
       /\ nth_error parts2 (Z.to_nat m) = Some tok
       /\ nth_error parts2 (S (Z.to_nat m)) = Some (lit "V")
       /\ (forall j, (j < Z.to_nat m)%nat -> nth_error parts2 j <> Some tok).
Proof.
  unfold marker_of. destruct (qualifying (lit "I") parts2) as [i|] eqn:E.
  - intros H. injection H as <-.
    destruct (qualifying_sound _ _ _ E) as [H0 H]. split; [exact H0|].
    exists (lit "I"). split; [left; reflexivity|exact H].
  - intros H. destruct (qualifying_sound _ _ _ H) as [H0 H']. split; [exact H0|].
    exists (lit "S"). split; [right; reflexivity|exact H'].
Qed.

(** X4: an index returned by the marker locator is sound: the token there
    is "I" or "S", the token after it is "V", and no earlier token equals
    the one found. *)
Theorem find_marker_idx_sound (parts2 : list str) (m : Z) :
  find_marker_idx parts2 = Ok (Some m) ->
  0 <= m
  /\ exists tok,
       (tok = lit "I" \/ tok = lit "S")
       /\ nth_error parts2 (Z.to_nat m) = Some tok
       /\ nth_error parts2 (S (Z.to_nat m)) = Some (lit "V")
       /\ (forall j, (j < Z.to_nat m)%nat -> nth_error parts2 j <> Some tok).
Proof.
  rewrite find_marker_idx_marker_of. intros H. injection H as H.
  apply marker_of_sound. exact H.
Qed.

Lemma find_marker_idx_sound_witness :
  find_marker_idx [lit "987"; lit "Widget"; lit "S"; lit "V"; lit "T1"] = Ok (Some 2)
  /\ nth_error [lit "987"; lit "Widget"; lit "S"; lit "V"; lit "T1"] 3
     = Some (lit "V").
Proof.
  assert (H : find_marker_idx [lit "987"; lit "Widget"; lit "S"; lit "V"; lit "T1"]
              = Ok (Some 2)) by (vm_compute; reflexivity).
  split; [exact H|].
  destruct (find_marker_idx_sound _ _ H) as [_ [tok [_ [_ [Hv _]]]]].
  exact Hv.
Defined.

(** ** The fields of a record *)

Lemma split_from_token (t rest cur : str) :
  forallb (fun c => negb (isspace_cp c)) t = true ->
  split_from (t ++ rest) cur = split_from rest (rev t ++ cur).
Proof.
  revert cur. induction t as [|c t IH]; intros cur H; [reflexivity|].
  cbn [forallb] in H. apply andb_true_iff in H. destruct H as [Hc Ht].
  cbn [app split_from]. destruct (isspace_cp c); [discriminate|].
  rewrite IH by exact Ht. cbn [rev]. rewrite <- app_assoc. reflexivity.
Qed.

Lemma join_cons2 (sep t t2 : str) (toks : list str) :
  join sep (t :: t2 :: toks) = t ++ sep ++ join sep (t2 :: toks).
Proof. reflexivity. Qed.

Lemma split_from_space (r : str) (c : N) (cur : str) :
  split_from (lit " " ++ r) (c :: cur) = rev (c :: cur) :: split_from r [].
Proof. reflexivity. Qed.

Lemma split_join (toks : list str) :
  Forall (fun t => clean_token t = true) toks ->
  split (join (lit " ") toks) = toks.
Proof.
  unfold split. induction 1 as [|t toks Ht Htoks IH]; [reflexivity|].
  unfold clean_token in Ht. apply andb_true_iff in Ht. destruct Ht as [Hne Hns].
  destruct (rev t) as [|c r] eqn:E.
  { destruct t as [|x t]; [discriminate|]. cbn [rev] in E.
    destruct (rev t); discriminate. }
  destruct toks as [|t2 toks].
  - cbn [join]. rewrite <- (app_nil_r t) at 1.
    rewrite split_from_token by exact Hns. cbn [split_from]. rewrite app_nil_r.
    rewrite E. rewrite <- E, rev_involutive. reflexivity.
  - rewrite join_cons2. rewrite split_from_token by exact Hns. rewrite app_nil_r.
    rewrite E. rewrite split_from_space. rewrite <- E, rev_involutive.
    rewrite IH. reflexivity.
Qed.

Lemma tokenize_clean (line : str) :
  Forall (fun t => clean_token t = true) (tokenize line).
Proof. rewrite tokenize_is_split. apply split_tokens_clean. Qed.

Lemma In_firstn {A : Type} (l : list A) (n : nat) (x : A) :
  In x (firstn n l) -> In x l.
Proof.
  intros H. rewrite <- (firstn_skipn n l). apply in_or_app. left. exact H.
Qed.

Lemma In_skipn {A : Type} (l : list A) (n : nat) (x : A) :
  In x (skipn n l) -> In x l.
Proof.
  intros H. rewrite <- (firstn_skipn n l). apply in_or_app. right. exact H.
Qed.

Lemma Forall_firstn_skipn {A : Type} (P : A -> Prop) (l : list A) (a b : nat) :
  Forall P l -> Forall P (firstn a (skipn b l)).
Proof.
  intros H. apply Forall_forall. intros x Hx.
  apply In_firstn in Hx. apply In_skipn in Hx.
  revert x Hx. apply Forall_forall. exact H.
Qed.

Lemma In_firstn_skipn1 {A : Type} (l : list A) (n : nat) (x : A) :
  In x (firstn n (skipn 1 l)) ->
  exists j, (1 <= j < S n)%nat /\ nth_error l j = Some x.
Proof.
  destruct l as [|y l]; cbn [skipn].
  - rewrite firstn_nil. intros [].
  - intros H. apply In_nth_error in H. destruct H as [k Hk].
    assert (Hlt : (k < n)%nat).
    { assert (k < List.length (firstn n l))%nat
        by (apply nth_error_Some; congruence).
      rewrite length_firstn in H. lia. }
    exists (S k). split; [lia|]. cbn [nth_error].
    rewrite nth_error_firstn in Hk.
    destruct (k <? n)%nat eqn:E; [exact Hk|]. apply Nat.ltb_ge in E. lia.
Qed.

(** X5: the Description of a record reads back, token by token, as the
    detail tokens strictly between the ticket number and the marker; none of
    them is the marker token itself. *)
Theorem description_round_trip (cleaned_lines : list str) (doc_no : option str)
  (date_rcvd : str) (i m : Z) (entries : list dict) :
  0 <= i < len cleaned_lines - 1 ->
  accepted_marker cleaned_lines i = Some m ->
  let detail := tokenize (line_at cleaned_lines (i + 1)) in
  exists e description,
    scan_step cleaned_lines doc_no date_rcvd i entries = Ok (i + 2, entries ++ [e])
    /\ lookup "Description" e = Some (CStr description)
    /\ tokenize description = firstn (Z.to_nat m - 1) (skipn 1 detail)
    /\ (forall t, In t (tokenize description) ->
          nth_error detail (Z.to_nat m) <> Some t).
Proof.
  intros Hi Ha detail.
  destruct (accepted_marker_digits _ _ _ Ha) as [_ [_ [_ [_ Hm]]]].
  fold detail in Hm.
  eexists. eexists. split.
  { rewrite scan_step_spec by exact Hi. rewrite Ha. reflexivity. }
  split; [reflexivity|].
  fold detail.
  assert (Ht : tokenize (join (lit " ") (firstn (Z.to_nat m - 1) (skipn 1 detail)))
               = firstn (Z.to_nat m - 1) (skipn 1 detail)).
  { rewrite tokenize_is_split. apply split_join.
    apply Forall_firstn_skipn. apply tokenize_clean. }
  split; [exact Ht|].
  intros t Hin. rewrite Ht in Hin.
  apply In_firstn_skipn1 in Hin. destruct Hin as [j [Hj Hnth]].
  destruct (marker_of_sound _ _ Hm) as [_ [tok [_ [Htok [_ Hmin]]]]].
  rewrite Htok. intros H. injection H as <-.
  apply (Hmin j); [lia|exact Hnth].
Qed.

Lemma description_round_trip_witness :
  accepted_marker (clean_lines scenario1_numeric) 0 = Some 3
  /\ exists e description,
       scan_step (clean_lines scenario1_numeric) None [] 0 [] = Ok (2, [e])
       /\ lookup "Description" e = Some (CStr description)
       /\ tokenize description = [lit "Widget"; lit "kit"].
Proof.
  split; [vm_compute; reflexivity|].
  destruct (description_round_trip (clean_lines scenario1_numeric) None [] 0 3 [])
    as [e [description [H1 [H2 [H3 _]]]]].
  - vm_compute. split; [discriminate|reflexivity].
  - vm_compute. reflexivity.
  - exists e, description. split; [exact H1|]. split; [exact H2|].
    rewrite H3. vm_compute. reflexivity.
Defined.

Lemma last_in {A : Type} (l : list A) (d : A) : l <> [] -> In (last l d) l.
Proof.
  induction l as [|x l IH]; [contradiction|]. intros _.
  destruct l as [|y l]; [left; reflexivity|].
  right. apply IH. discriminate.
Qed.

(** X6: the Additional Info of a record is never the placeholder "."; it
    is empty exactly when every token after the TAMS position is a
    placeholder (or none is left), and otherwise it is one of those tokens. *)
Theorem additional_info_not_placeholder (cleaned_lines : list str)
  (doc_no : option str) (date_rcvd : str) (i m : Z) (entries : list dict) :
  0 <= i < len cleaned_lines - 1 ->
  accepted_marker cleaned_lines i = Some m ->
  let after_tams := skipn (Z.to_nat m + 3) (tokenize (line_at cleaned_lines (i + 1))) in
  exists e info,
    scan_step cleaned_lines doc_no date_rcvd i entries = Ok (i + 2, entries ++ [e])
    /\ lookup "Additional Info" e = Some (CStr info)
    /\ info <> lit "."
    /\ (info = [] <-> Forall (fun t => t = lit ".") after_tams)
    /\ (info <> [] -> In info after_tams).
Proof.
  intros Hi Ha after_tams.
  eexists. eexists. split.
  { rewrite scan_step_spec by exact Hi. rewrite Ha. reflexivity. }
  split; [reflexivity|]. fold after_tams.
  set (tail := filter (fun t => negb (str_eqb t (lit "."))) after_tams).
  assert (Hclean : Forall (fun t => clean_token t = true) after_tams).
  { unfold after_tams. apply Forall_forall. intros x Hx. apply In_skipn in Hx.
    revert x Hx. apply Forall_forall. apply tokenize_clean. }
  destruct tail as [|t tl] eqn:Et.
  - cbn [last]. split; [discriminate|]. split; [|intros H; contradiction].
    split; [|reflexivity]. intros _. apply Forall_forall. intros x Hx.
    destruct (str_eqb x (lit ".")) eqn:E; [apply str_eqb_eq; exact E|].
    assert (Hin : In x tail).
    { unfold tail. apply filter_In. split; [exact Hx|]. rewrite E. reflexivity. }
    rewrite Et in Hin. destruct Hin.
  - assert (Hin : In (last (t :: tl) []) tail).
    { rewrite Et. apply last_in. discriminate. }
    unfold tail in Hin. apply filter_In in Hin. destruct Hin as [Hin Hne].
    assert (Hn : last (t :: tl) [] <> []).
    { rewrite Forall_forall in Hclean. specialize (Hclean _ Hin).
      intros E. rewrite E in Hclean. discriminate. }
    split.
    { intros E. rewrite E in Hne. discriminate. }
    split; [|intros _; exact Hin].
    split; [intros E; contradiction|].
    intros Hall. exfalso. rewrite Forall_forall in Hall.
    rewrite (Hall _ Hin) in Hne. discriminate.
Qed.

Lemma additional_info_not_placeholder_witness :
  accepted_marker (clean_lines scenario1_numeric) 0 = Some 3
  /\ exists e,
       scan_step (clean_lines scenario1_numeric) None [] 0 [] = Ok (2, [e])
       /\ lookup "Additional Info" e = Some (CStr (lit "X")).
Proof.
  split; [vm_compute; reflexivity|].
  destruct (additional_info_not_placeholder
              (clean_lines scenario1_numeric) None [] 0 3 [])
    as [e [info [H1 [H2 _]]]].
  - vm_compute. split; [discriminate|reflexivity].
  - vm_compute. reflexivity.
  - exists e. split; [exact H1|].
    vm_compute in H1. injection H1 as <-. vm_compute. reflexivity.
Defined.


(** ** Which lines the records come from *)






Lemma first_token_isdigit_tok_at (tokens : list str) :
  first_token_isdigit tokens = true -> isdigit (tok_at tokens 0) = true.
Proof. destruct tokens as [|t ts]; [discriminate|]. intros H. exact H. Qed.

(** X8: in every record of a document the Line and the Ticket Number are
    made of digits only. *)
Theorem line_and_ticket_all_digits (env : Env) (txt : str)
  (override_date : option str) :
  exists df meta,
    parse_one_text env txt override_date = Ok (df, meta)
    /\ Forall (fun r =>
                 exists l t,
                   lookup "Line" r = Some (CStr l)
                   /\ lookup "Ticket Number" r = Some (CStr t)
                   /\ isdigit l = true /\ isdigit t = true)
              (rows df).
Proof.
  destruct (parse_one_text_spec env txt override_date)
    as [d [es [_ [_ [Hrec [_ Hp]]]]]].
  eexists. eexists. split; [exact Hp|]. cbn [rows]. apply Forall_map.
  eapply Forall_impl; [|exact Hrec].
  intros e [i [m [_ [Ha ->]]]].
  destruct (accepted_marker_digits _ _ _ Ha) as [H1 [H2 _]].
  eexists. eexists. split; [reflexivity|]. split; [reflexivity|].
  split; apply first_token_isdigit_tok_at; assumption.
Qed.

(** ** The batch *)

Lemma strftime_iso_truthy (pads : bool) (d : date) :
  truthy (strftime_iso pads d) = true.
Proof. unfold strftime_iso. destruct (fmt_Y pads (year d)); reflexivity. Qed.

Lemma process_file_frame (env : Env) (use_header_date : bool) (manual : date)
  (st : flow) (f : upload) :
  exists st',
    process_file env use_header_date manual st f = Ok st'
    /\ all_details st' = all_details st ++ [file_frame env use_header_date manual f]
    /\ assembled_frame (file_frame env use_header_date manual f).
Proof.
  destruct (process_file_ok env use_header_date manual st f)
    as [t [df [meta [badge [H1 [H2 [H3 H4]]]]]]].
  eexists. split; [exact H4|]. cbn [all_details].
  assert (E : file_frame env use_header_date manual f = df).
  { unfold file_frame, file_text, override_of. rewrite H1, H2. reflexivity. }
  rewrite E. split; [reflexivity|exact H3].
Qed.

Lemma process_files_frames (env : Env) (use_header_date : bool) (manual : date)
  (files : list upload) :
  forall st,
    exists st',
      process_files env use_header_date manual st files = Ok st'
      /\ all_details st'
         = all_details st ++ map (file_frame env use_header_date manual) files.
Proof.
  induction files as [|f files IH]; intros st; cbn [process_files map].
  - exists st. rewrite app_nil_r. split; reflexivity.
  - destruct (process_file_frame env use_header_date manual st f)
      as [st1 [H1 [H2 _]]].
    rewrite H1. cbn [bind]. destruct (IH st1) as [st' [H3 H4]].
    exists st'. split; [exact H3|]. rewrite H4, H2, <- app_assoc. reflexivity.
Qed.

Lemma flat_map_map_rows {A : Type} (g : A -> DataFrame) (l : list A) :
  flat_map rows (map g l) = flat_map (fun x => rows (g x)) l.
Proof.
  induction l as [|x l IH]; [reflexivity|]. cbn [map flat_map]. rewrite IH. reflexivity.
Qed.

Lemma main_flow_rows (env : Env) (use_header_date : bool) (manual : date)
  (f : upload) (files : list upload) :
  exists details,
    main_flow env use_header_date manual (f :: files) = Ok (Some details)
    /\ rows details
       = flat_map (fun x => rows (file_frame env use_header_date manual x))
                  (f :: files).
Proof.
  unfold main_flow. cbn [truthy].
  destruct (process_files_frames env use_header_date manual (f :: files)
              (mkFlow None [] [] [])) as [st [H1 H2]].
  rewrite H1. cbn [bind]. cbn [all_details app] in H2. rewrite H2.
  set (frames := map (file_frame env use_header_date manual) (f :: files)).
  assert (Ht : truthy frames = true) by reflexivity. rewrite Ht.
  assert (Hf : Forall assembled_frame frames).
  { unfold frames. apply Forall_map. apply Forall_forall. intros x _.
    destruct (process_file_frame env use_header_date manual (mkFlow None [] [] []) x)
      as [_ [_ [_ H]]]. exact H. }
  assert (Hne : frames <> []) by discriminate.
  rewrite (concat_assembled frames Hf Hne). cbn [bind].
  eexists. split; [reflexivity|]. cbn [rows].
  unfold frames. apply flat_map_map_rows.
Qed.

Lemma map_flat_map {A B C : Type} (g : B -> C) (h : A -> list B) (l : list A) :
  map g (flat_map h l) = flat_map (fun x => map g (h x)) l.
Proof.
  induction l as [|x l IH]; [reflexivity|].
  cbn [flat_map]. rewrite map_app, IH. reflexivity.
Qed.

(** X9: the records of a batch are those of its uploads, in upload
    order and, within an upload, in document order: on the text columns the
    rows of the assembled set are the rows of the first upload, then those
    of the second, and so on, and their number is the sum of the numbers of
    records of the uploads; no record is merged, dropped or moved. *)
Theorem batch_rows_in_upload_order (env : Env) (use_header_date : bool)
  (manual : date) (f : upload) (files : list upload) :
  exists details,
    main_flow env use_header_date manual (f :: files) = Ok (Some details)
    /\ map text_part (rows details)
       = flat_map (fun x => map text_part
                              (rows (file_frame env use_header_date manual x)))
                  (f :: files)
    /\ List.length (rows details)
       = list_sum (map (fun x => List.length
                                   (rows (file_frame env use_header_date manual x)))
                       (f :: files)).
Proof.
  destruct (main_flow_rows env use_header_date manual f files) as [details [H1 H2]].
  exists details. split; [exact H1|]. rewrite H2. split; [apply map_flat_map|].
  generalize (f :: files). intros l.
  induction l as [|x l IH]; [reflexivity|].
  cbn [flat_map map list_sum]. rewrite length_app, IH. reflexivity.
Qed.

(** X10: with the toggle off, the one operator-supplied date is the Date
    Rcvd of every record of every document of the batch, whatever dates the
    documents carry. *)
Theorem override_date_uniform_in_batch (env : Env) (manual : date)
  (f : upload) (files : list upload) :
  exists details,
    main_flow env false manual (f :: files) = Ok (Some details)
    /\ Forall (fun r => lookup "Date Rcvd" r
                        = Some (CStr (strftime_iso (pads_year env) manual)))
              (rows details).
Proof.
  destruct (main_flow_rows env false manual f files) as [details [H1 H2]].
  exists details. split; [exact H1|]. rewrite H2.
  generalize (f :: files). intros l. apply Forall_flat_map.
  apply Forall_forall. intros x _. unfold file_frame, override_of.
  destruct (parse_one_text_spec env (file_text x)
              (Some (strftime_iso (pads_year env) manual)))
    as [d [es [Hd [_ [Hrec [_ Hp]]]]]].
  rewrite Hp. cbn [rows].
  unfold choose_date in Hd. rewrite strftime_iso_truthy in Hd. injection Hd as <-.
  apply Forall_map. eapply Forall_impl; [|exact Hrec].
  intros e [i [m [_ [_ ->]]]]. reflexivity.
Qed.


(** ** The shipping document number *)

Lemma safe_char_ascii (c : N) : safe_char c = true -> (c < 128)%N.
Proof.
  unfold safe_char, Re.ascii_upper, Re.ascii_lower, Re.ascii_digit, Re.in_class.
  intros H.
  repeat (apply orb_true_iff in H; destruct H as [H|H]);
    try (apply andb_true_iff in H; destruct H as [_ H]; apply N.leb_le in H; lia);
    apply N.eqb_eq in H; lia.
Qed.

Lemma safe_char_facts_below :
  forall c, (c < 128)%N -> safe_char c = true ->
    isspace_cp c = false /\ doc_no_char c = true.
Proof.
  below_cases 128%nat; intros H; first [split; reflexivity | discriminate H].
Qed.

Lemma safe_char_facts (c : N) :
  safe_char c = true -> isspace_cp c = false /\ doc_no_char c = true.
Proof.
  intros H. apply safe_char_facts_below; [apply safe_char_ascii|]; exact H.
Qed.

Lemma sanitized_safe (g : str) :
  forallb safe_char (map (fun c => if safe_char c then c else 95%N) g) = true.
Proof.
  induction g as [|c g IH]; [reflexivity|]. cbn [map forallb].
  rewrite IH, andb_true_r. destruct (safe_char c) eqn:E; [exact E|reflexivity].
Qed.

(** X11: a shipping document number, when one is found, is never empty and
    holds only letters, digits, hyphens and underscores. *)
Theorem shipping_doc_number_safe (txt d : str) :
  extract_shipping_doc_number txt = Some d ->
  d <> [] /\ forallb safe_char d = true.
Proof.
  unfold extract_shipping_doc_number.
  destruct (Re.search shipping_doc_re txt) as [g|]; [|discriminate].
  destruct (truthy _) eqn:E; [|discriminate].
  intros H. injection H as <-. split.
  - intros H. rewrite H in E. discriminate.
  - apply sanitized_safe.
Qed.

Lemma shipping_doc_number_safe_witness :
  extract_shipping_doc_number labelled_doc = Some (lit "AB_12-34")
  /\ forallb safe_char (lit "AB_12-34") = true.
Proof.
  assert (H : extract_shipping_doc_number labelled_doc = Some (lit "AB_12-34"))
    by (vm_compute; reflexivity).
  split; [exact H|]. exact (proj2 (shipping_doc_number_safe _ _ H)).
Defined.

Lemma ci_eqb_refl (p : N) : Re.ci_eqb p p = true.
Proof. unfold Re.ci_eqb. rewrite N.eqb_refl. reflexivity. Qed.

Lemma word_ci_same {A : Type} (w s : str) (k : str -> option A) :
  Re.word_ci w (w ++ s) k = k s.
Proof.
  induction w as [|p w IH]; [reflexivity|].
  cbn [app Re.word_ci]. rewrite ci_eqb_refl. exact IH.
Qed.

Lemma many_all {A : Type} (p : N -> bool) (d rest : str) :
  forallb p d = true ->
  match rest with c :: _ => p c = false | [] => True end ->
  forall (F : str -> str -> A),
    Re.many p (d ++ rest) (fun m r => Some (F m r)) = Some (F d rest).
Proof.
  intros Hd Hrest. induction d as [|c d IH]; intros F.
  - cbn [app]. destruct rest as [|c r]; [reflexivity|].
    cbn [Re.many]. rewrite Hrest. reflexivity.
  - cbn [forallb] in Hd. apply andb_true_iff in Hd. destruct Hd as [Hc Hd].
    cbn [app Re.many]. rewrite Hc.
    rewrite (IH Hd (fun m r => F (c :: m) r)). reflexivity.
Qed.

Lemma forallb_safe_strip (d : str) :
  forallb safe_char d = true -> strip d = d.
Proof.
  intros H. rewrite forallb_forall in H. apply strip_unchanged.
  - destruct d as [|c d]; [exact I|]. apply safe_char_facts. apply H. left. reflexivity.
  - destruct (rev d) as [|c r] eqn:E; [exact I|].
    apply safe_char_facts. apply H. apply In_rev. rewrite E. left. reflexivity.
Qed.

(** X12: a safe identifier written after the label is read back
    unchanged: for a non-empty [d] of letters, digits, hyphens and
    underscores, a text that opens with "Shipping Document No: " and [d],
    followed by nothing or by a character outside the identifier class,
    yields exactly [d]. *)
Theorem shipping_doc_number_round_trip (d rest : str) :
  d <> [] -> forallb safe_char d = true ->
  match rest with c :: _ => doc_no_char c = false | [] => True end ->
  extract_shipping_doc_number (lit "Shipping Document No: " ++ d ++ rest) = Some d.
Proof.
  intros Hne Hsafe Hrest. destruct d as [|c d]; [contradiction|].
  assert (Hc : safe_char c = true).
  { cbn [forallb] in Hsafe. apply andb_true_iff in Hsafe. apply Hsafe. }
  destruct (safe_char_facts c Hc) as [Hsp Hdc].
  assert (Hall : forallb doc_no_char d = true).
  { cbn [forallb] in Hsafe. apply andb_true_iff in Hsafe. destruct Hsafe as [_ Hs].
    apply forallb_forall. intros x Hx. rewrite forallb_forall in Hs.
    apply safe_char_facts. apply Hs. exact Hx. }
  assert (Hm : shipping_doc_re (lit "Shipping Document No: " ++ (c :: d) ++ rest)
               = Some (c :: d)).
  { unfold shipping_doc_re.
    change (lit "Shipping Document No: " ++ (c :: d) ++ rest)
      with (lit "Shipping" ++ 32%N :: lit "Document" ++ 32%N :: lit "No:"
            ++ 32%N :: c :: d ++ rest).
    rewrite word_ci_same.
    change (Re.spaces1 (32%N :: lit "Document" ++ ?s) ?k)
      with (k (lit "Document" ++ s)).
    cbv beta. rewrite word_ci_same.
    change (Re.spaces1 (32%N :: lit "No:" ++ ?s) ?k) with (k (lit "No:" ++ s)).
    cbv beta. rewrite word_ci_same.
    cbn [Re.spaces]. change (isspace_cp 32) with true. cbv iota.
    rewrite Hsp. cbn [Re.many1]. rewrite Hdc.
    pose proof (many_all doc_no_char d rest Hall Hrest (fun m _ => c :: m)) as HM.
    cbv beta in HM.
    match goal with
    | |- Re.orelse ?x _ = _ => replace x with (Some (c :: d)) by (symmetry; exact HM)
    end.
    reflexivity. }
  unfold extract_shipping_doc_number.
  assert (Hs : Re.search shipping_doc_re
                 (lit "Shipping Document No: " ++ (c :: d) ++ rest) = Some (c :: d)).
  { destruct (lit "Shipping Document No: " ++ (c :: d) ++ rest) eqn:E;
      cbn [Re.search]; rewrite Hm; reflexivity. }
  rewrite Hs. rewrite forallb_safe_strip by exact Hsafe.
  assert (Hmap : map (fun x => if safe_char x then x else 95%N) (c :: d) = c :: d).
  { rewrite <- (map_id (c :: d)) at 2. apply map_ext_in. intros x Hx.
    rewrite forallb_forall in Hsafe. rewrite (Hsafe x Hx). reflexivity. }
  rewrite Hmap. reflexivity.
Qed.

Lemma shipping_doc_number_round_trip_witness :
  lit "AB-12_34" <> []
  /\ extract_shipping_doc_number
       (lit "Shipping Document No: " ++ lit "AB-12_34" ++ lit " rev 2")
     = Some (lit "AB-12_34").
Proof.
  split; [discriminate|].
  apply shipping_doc_number_round_trip; [discriminate|reflexivity|reflexivity].
Defined.


(** ** The received date *)

Lemma strptime_valid (s : str) (fmt : date_format) (d : date) :
  strptime s fmt = Ok d -> valid_date (year d) (month d) (day d) = true.
Proof.
  unfold strptime. destruct (format_match fmt s) as [[[[y m] dd] rest]|]; [|discriminate].
  destruct (truthy rest); [discriminate|].
  destruct (valid_date y m dd) eqn:E; [|discriminate].
  intros H. injection H as <-. exact E.
Qed.

Lemma normalize_loop_shape (env : Env) (s : str) (fmts : list date_format) (x : str) :
  normalize_loop env s fmts = Ok (Some x) ->
  exists d, valid_date (year d) (month d) (day d) = true
            /\ x = strftime_iso (pads_year env) d.
Proof.
  induction fmts as [|fmt fmts IH]; cbn [normalize_loop]; [discriminate|].
  destruct (strptime s fmt) as [d|e|] eqn:E.
  - intros H. injection H as <-. exists d. split; [|reflexivity].
    eapply strptime_valid. exact E.
  - destruct e; try discriminate. exact IH.
  - discriminate.
Qed.

Lemma date_tier_shape (env : Env) (re : str -> option str) (txt x : str) :
  date_tier env re txt = Ok (Some x) ->
  exists d, valid_date (year d) (month d) (day d) = true
            /\ x = strftime_iso (pads_year env) d.
Proof.
  unfold date_tier. destruct (Re.search re txt) as [g|]; [|discriminate].
  unfold normalize_date_str.
  destruct (normalize_loop env (strip g) date_formats) as [[y|]|e|] eqn:E;
    cbn [bind]; try discriminate.
  destruct (truthy y); [|discriminate].
  intros H. injection H as <-. eapply normalize_loop_shape. exact E.
Qed.

(** X13: the date of a document never raises and is never raw text of the
    document: it is the [YYYY-MM-DD] rendering of a valid calendar date read
    from a label, or of the run date. *)
Theorem extracted_date_is_a_date (env : Env) (txt : str) :
  exists d,
    extract_received_or_created_date env txt
    = Ok (strftime_iso (pads_year env) d)
    /\ (d = today env \/ valid_date (year d) (month d) (day d) = true).
Proof.
  unfold extract_received_or_created_date.
  destruct (date_tier_ok env received_re txt) as [r Hr]. rewrite Hr. cbn [bind].
  destruct r as [x|].
  - destruct (date_tier_shape _ _ _ _ Hr) as [d [Hv ->]].
    exists d. split; [reflexivity|right; exact Hv].
  - destruct (date_tier_ok env created_re txt) as [r' Hr']. rewrite Hr'. cbn [bind].
    destruct r' as [x|].
    + destruct (date_tier_shape _ _ _ _ Hr') as [d [Hv ->]].
      exists d. split; [reflexivity|right; exact Hv].
    + exists (today env). split; [reflexivity|left; reflexivity].
Qed.

Lemma digit_not_slash (n : N) : (digit_cp (n mod 10) =? slash)%N = false.
Proof.
  apply N.eqb_neq. unfold digit_cp, slash. generalize (n mod 10)%N. intros x. lia.
Qed.

Ltac split_conditions :=
  repeat match goal with
         | |- context [if ?b then _ else _] =>
             match type of b with bool => destruct b end
         | |- context [match decimal_value ?c with _ => _ end] =>
             destruct (decimal_value c)
         end;
  reflexivity.

Lemma re_d_three_digits {A : Type} (a b c : N) (rest : str)
  (K : N -> str -> option A) :
  (b =? slash)%N = false -> (c =? slash)%N = false ->
  re_d (a :: b :: c :: rest) (fun v s1 => Re.char slash s1 (K v)) = None.
Proof.
  intros Hb Hc.
  cbv beta iota delta [re_d Re.char Re.range Re.digit Re.orelse].
  rewrite ?Hb, ?Hc. split_conditions.
Qed.

Lemma re_m_three_digits {A : Type} (a b c : N) (rest : str)
  (K : N -> str -> option A) :
  (b =? slash)%N = false -> (c =? slash)%N = false ->
  re_m (a :: b :: c :: rest) (fun v s1 => Re.char slash s1 (K v)) = None.
Proof.
  intros Hb Hc.
  cbv beta iota delta [re_m Re.char Re.range Re.orelse].
  rewrite ?Hb, ?Hc. split_conditions.
Qed.

Lemma re_m_other_sep {A : Type} (sep sep' : N) (rest : str)
  (K : N -> str -> option A) :
  (sep = slash /\ sep' = dash) \/ (sep = dash /\ sep' = slash) ->
  forall a, (a < 100)%N ->
    re_m (pad2 a ++ sep' :: rest) (fun v s1 => Re.char sep s1 (K v)) = None.
Proof. intros [[-> ->] | [-> ->]]; below_cases 100%nat. Qed.

Lemma mod10_lt (n : N) : (n mod 10 < 10)%N.
Proof. apply N.mod_lt. lia. Qed.

Lemma strptime_four_digits_day_first (y : N) (rest : str) :
  strptime (pad4 y ++ rest) Dmy = Raise ValueError
  /\ strptime (pad4 y ++ rest) Mdy = Raise ValueError.
Proof.
  unfold strptime, format_match, pad4, digits4. cbn [map app].
  rewrite re_d_three_digits by apply digit_not_slash.
  rewrite re_m_three_digits by apply digit_not_slash.
  split; reflexivity.
Qed.

Lemma strptime_mixed (sep sep' sep0 y m d : N) :
  (y <= 9999)%N -> (m < 100)%N ->
  (sep = slash /\ sep' = dash) \/ (sep = dash /\ sep' = slash) ->
  sep0 = slash \/ sep0 = dash ->
  strptime (pad4 y ++ sep :: pad2 m ++ sep' :: pad2 d) (Ymd sep0) = Raise ValueError.
Proof.
  intros Hy Hm Hsep H0. unfold strptime, format_match.
  rewrite re_Y_pad4 by exact Hy. cbn [Re.char].
  destruct (sep =? sep0)%N eqn:E; [|reflexivity].
  apply N.eqb_eq in E. subst sep0.
  rewrite (re_m_other_sep sep sep' (pad2 d)
             (fun v s4 => re_d s4 (fun d0 s5 => Some (y, v, d0, s5))) Hsep m Hm).
  reflexivity.
Qed.

(** X14: a date written with two different separators, which the label
    pattern lets through ([2024/03-05], [2024-03/05]), is not a date for the
    normalizer: it yields no date, whatever the digits. *)
Theorem mixed_separators_not_a_date (env : Env) (y m d sep sep' : N) :
  (y <= 9999)%N -> (m < 100)%N -> (d < 100)%N ->
  (sep = slash /\ sep' = dash) \/ (sep = dash /\ sep' = slash) ->
  date_group (pad4 y ++ sep :: pad2 m ++ sep' :: pad2 d)
  = Some (pad4 y ++ sep :: pad2 m ++ sep' :: pad2 d)
  /\ normalize_date_str env (pad4 y ++ sep :: pad2 m ++ sep' :: pad2 d) = Ok None.
Proof.
  intros Hy Hm Hd Hsep. split.
  - unfold date_group, pad4, pad2, digits4, digit_cp. cbn [map app Re.times].
    assert (Hdig : forall n, Re.ascii_digit (48 + n mod 10) = true).
    { intros n. pose proof (mod10_lt n) as H. revert H.
      generalize (n mod 10)%N. intros x H. unfold Re.ascii_digit, Re.in_class.
      apply andb_true_iff. split; apply N.leb_le; lia. }
    rewrite !Hdig.
    assert (Hs : is_sep sep = true /\ is_sep sep' = true)
      by (destruct Hsep as [[-> ->] | [-> ->]]; split; reflexivity).
    destruct Hs as [-> ->]. reflexivity.
  - unfold normalize_date_str, date_formats.
    assert (Hstrip : strip (pad4 y ++ sep :: pad2 m ++ sep' :: pad2 d)
                     = pad4 y ++ sep :: pad2 m ++ sep' :: pad2 d).
    { unfold pad4, pad2, digits4. cbn [map app].
      match goal with
      | |- strip (?c :: ?a :: ?b :: ?e :: ?f :: ?g :: ?h :: ?i :: ?j :: [?z]) = _ =>
          apply (strip_written (y / 1000) d [a; b; e; f; g; h; i; j])
      end. }
    rewrite Hstrip. cbn [normalize_loop].
    rewrite !strptime_mixed by (try assumption; try (left; reflexivity);
                                try (right; reflexivity)).
    destruct (strptime_four_digits_day_first y (sep :: pad2 m ++ sep' :: pad2 d))
      as [H1 H2].
    rewrite H1, H2. reflexivity.
Qed.

Lemma mixed_separators_not_a_date_witness :
  (2024 <= 9999)%N
  /\ normalize_date_str sample_env (lit "2024/03-05") = Ok None.
Proof.
  split; [lia|].
  apply (proj2 (mixed_separators_not_a_date sample_env 2024 3 5 slash dash
                  ltac:(lia) ltac:(lia) ltac:(lia)
                  (or_introl (conj eq_refl eq_refl)))).
Defined.


(** ** The decoding chain *)

Ltac case_N n :=
  destruct n as [|n];
  [try reflexivity | repeat (destruct n as [n|n|]; try reflexivity)].

Lemma strip_bom_eq (bs : list N) :
  strip_bom bs
  = match bs with
    | b0 :: b1 :: b2 :: r =>
        if ((b0 =? 239) && (b1 =? 187) && (b2 =? 191))%N then r else bs
    | _ => bs
    end.
Proof.
  destruct bs as [|b0 [|b1 [|b2 r]]]; [reflexivity| | |].
  - case_N b0.
  - case_N b0. case_N b1.
  - case_N b0. case_N b1. case_N b2.
Qed.

Lemma utf8_decode_bom (r : list N) :
  utf8_decode (bom ++ r) = option_map (cons bom_cp) (utf8_decode r).
Proof. reflexivity. Qed.

Lemma utf8_sig_fails_then_utf8_fails (bs : list N) :
  utf8_decode (strip_bom bs) = None -> utf8_decode bs = None.
Proof.
  rewrite strip_bom_eq. destruct bs as [|b0 [|b1 [|b2 r]]]; try (intros H; exact H).
  destruct ((b0 =? 239) && (b1 =? 187) && (b2 =? 191))%N eqn:E; [|intros H; exact H].
  apply andb_true_iff in E. destruct E as [E E2]. apply andb_true_iff in E.
  destruct E as [E0 E1]. apply N.eqb_eq in E0, E1, E2. subst.
  intros H. change (239 :: 187 :: 191 :: r)%N with (bom ++ r).
  rewrite utf8_decode_bom, H. reflexivity.
Qed.

(** X15: the plain UTF-8 attempt never decides the outcome: whenever
    decoding as UTF-8 with signature fails, plain UTF-8 fails too, so the
    text is the UTF-8 reading without a leading byte order mark, or else the
    Latin-1 reading of the same bytes, one character per byte. *)
Theorem decoding_chain_two_outcomes (raw : list Byte.byte) (prev : option str) :
  decode_loop encodings raw prev
  = match decode raw Utf8Sig with
    | Some t => Some t
    | None => Some (map Byte.to_N raw)
    end
  /\ match decode raw Utf8Sig with
     | Some _ => True
     | None => decode raw Utf8 = None
     end.
Proof.
  assert (H : decode raw Utf8Sig = None -> decode raw Utf8 = None).
  { cbn [decode]. apply utf8_sig_fails_then_utf8_fails. }
  unfold encodings. cbn [decode_loop].
  destruct (decode raw Utf8Sig) as [t|]; [split; [reflexivity|exact I]|].
  rewrite (H eq_refl). split; reflexivity.
Qed.

Ltac decide_tests :=
  repeat match goal with
         | |- context [(?a <? ?b)%N] =>
             first [ replace (a <? b)%N with true
                       by (symmetry; apply N.ltb_lt; lia)
                   | replace (a <? b)%N with false
                       by (symmetry; apply N.ltb_ge; lia) ]
         | |- context [(?a <=? ?b)%N] =>
             first [ replace (a <=? b)%N with true
                       by (symmetry; apply N.leb_le; lia)
                   | replace (a <=? b)%N with false
                       by (symmetry; apply N.leb_gt; lia) ]
         | |- context [(?a =? ?b)%N] =>
             first [ replace (a =? b)%N with true
                       by (symmetry; apply N.eqb_eq; lia)
                   | replace (a =? b)%N with false
                       by (symmetry; apply N.eqb_neq; lia) ]
         end.

Lemma split_64 (c : N) :
  exists q r, (c = 64 * q + r /\ r < 64 /\ c / 64 = q /\ c mod 64 = r)%N.
Proof.
  exists (c / 64)%N, (c mod 64)%N. repeat split.
  - apply N.div_mod. lia.
  - apply N.mod_lt. lia.
Qed.

Lemma utf8_decode_encode_cp (c : N) (rest : list N) :
  scalar_value c = true ->
  utf8_decode (utf8_encode_cp c ++ rest) = option_map (cons c) (utf8_decode rest).
Proof.
  unfold scalar_value. intros Hs.
  assert (Hc : (c < 55296 \/ 57344 <= c <= 1114111)%N).
  { apply orb_true_iff in Hs. destruct Hs as [H|H].
    - left. apply N.ltb_lt. exact H.
    - right. apply andb_true_iff in H. destruct H as [H1 H2].
      apply N.leb_le in H1, H2. lia. }
  clear Hs. unfold utf8_encode_cp.
  destruct (split_64 c) as [q0 [r0 [E0 [Hr0 [Dq0 Dr0]]]]].
  destruct (split_64 q0) as [q1 [r1 [E1 [Hr1 [Dq1 Dr1]]]]].
  destruct (split_64 q1) as [q2 [r2 [E2 [Hr2 [Dq2 Dr2]]]]].
  assert (D4096 : (c / 4096 = q1)%N).
  { rewrite <- Dq1, <- Dq0. rewrite N.Div0.div_div. reflexivity. }
  assert (D262144 : (c / 262144 = q2)%N).
  { rewrite <- Dq2, <- Dq1, <- Dq0. rewrite !N.Div0.div_div. reflexivity. }
  rewrite D4096, D262144, Dq0, Dr0, Dr1, Dr2.
  clear Dq0 Dr0 Dq1 Dr1 Dq2 Dr2 D4096 D262144.
  destruct (N.ltb_spec c 128) as [L1|L1].
  - cbn [app utf8_decode]. decide_tests. reflexivity.
  - destruct (N.ltb_spec c 2048) as [L2|L2].
    + cbn [app utf8_decode]. unfold is_cont, low6, Re.in_class.
      decide_tests. cbn [andb]. do 2 f_equal. lia.
    + destruct (N.ltb_spec c 65536) as [L3|L3].
      * cbn [app utf8_decode]. unfold is_cont, low6, Re.in_class.
        destruct (N.eq_dec q1 0) as [Z0|Z0];
          [|destruct (N.eq_dec q1 13) as [Z13|Z13]];
          decide_tests; cbn [andb]; do 2 f_equal; lia.
      * cbn [app utf8_decode]. unfold is_cont, low6, Re.in_class.
        destruct (N.eq_dec q2 0) as [Z0|Z0];
          [|destruct (N.eq_dec q2 4) as [Z4|Z4]];
          decide_tests; cbn [andb]; do 2 f_equal; lia.
Qed.


Lemma utf8_decode_encode (s : str) :
  forallb scalar_value s = true -> utf8_decode (utf8_encode s) = Some s.
Proof.
  induction s as [|c s IH]; intros H; [reflexivity|].
  cbn [forallb] in H. apply andb_true_iff in H. destruct H as [Hc Hs].
  unfold utf8_encode. cbn [flat_map]. rewrite utf8_decode_encode_cp by exact Hc.
  fold (utf8_encode s). rewrite IH by exact Hs. reflexivity.
Qed.

Lemma strip_bom_first (b0 : N) (l : list N) :
  b0 <> 239%N -> strip_bom (b0 :: l) = b0 :: l.
Proof.
  intros H. rewrite strip_bom_eq. destruct l as [|b1 [|b2 r]]; try reflexivity.
  replace (b0 =? 239)%N with false by (symmetry; apply N.eqb_neq; exact H).
  reflexivity.
Qed.

Lemma strip_bom_encode (c : N) (rest : list N) :
  c <> bom_cp -> strip_bom (utf8_encode_cp c ++ rest) = utf8_encode_cp c ++ rest.
Proof.
  unfold bom_cp, utf8_encode_cp. intros Hc.
  destruct (split_64 c) as [q0 [r0 [E0 [Hr0 [Dq0 Dr0]]]]].
  destruct (split_64 q0) as [q1 [r1 [E1 [Hr1 [Dq1 Dr1]]]]].
  destruct (split_64 q1) as [q2 [r2 [E2 [Hr2 [Dq2 Dr2]]]]].
  assert (D4096 : (c / 4096 = q1)%N).
  { rewrite <- Dq1, <- Dq0. rewrite N.Div0.div_div. reflexivity. }
  assert (D262144 : (c / 262144 = q2)%N).
  { rewrite <- Dq2, <- Dq1, <- Dq0. rewrite !N.Div0.div_div. reflexivity. }
  rewrite D4096, D262144, Dq0, Dr0, Dr1, Dr2.
  clear Dq0 Dr0 Dq1 Dr1 Dq2 Dr2 D4096 D262144.
  destruct (N.ltb_spec c 128) as [L1|L1]; [apply strip_bom_first; lia|].
  destruct (N.ltb_spec c 2048) as [L2|L2]; [apply strip_bom_first; lia|].
  destruct (N.ltb_spec c 65536) as [L3|L3]; [|apply strip_bom_first; lia].
  cbn [app]. rewrite strip_bom_eq.
  destruct ((224 + q1 =? 239) && (128 + r1 =? 187) && (128 + r0 =? 191))%N eqn:E;
    [|reflexivity].
  exfalso. apply andb_true_iff in E. destruct E as [E Ec]. apply andb_true_iff in E.
  destruct E as [Ea Eb]. apply N.eqb_eq in Ea, Eb, Ec. lia.
Qed.

(** X16: text in UTF-8 comes back exactly: the bytes of any text of
    Unicode scalar values decode to that text, a byte order mark in front of
    them is dropped, and nothing else is (the text itself must not open with
    the mark's code point, which the signature decoder would take for a
    mark). *)
Theorem utf8_text_decoded_back (raw : list Byte.byte) (s : str)
  (prev : option str) :
  forallb scalar_value s = true ->
  (map Byte.to_N raw = utf8_encode s /\ hd_error s <> Some bom_cp)
  \/ map Byte.to_N raw = bom ++ utf8_encode s ->
  decode_loop encodings raw prev = Some s.
Proof.
  intros Hs H. unfold encodings. cbn [decode_loop decode].
  assert (E : utf8_decode (strip_bom (map Byte.to_N raw)) = Some s).
  { destruct H as [[H Hhd] | H]; rewrite H.
    - destruct s as [|c s']; [reflexivity|].
      unfold utf8_encode. cbn [flat_map]. rewrite strip_bom_encode.
      + fold (utf8_encode s'). change (utf8_encode_cp c ++ utf8_encode s')
          with (utf8_encode (c :: s')). apply utf8_decode_encode. exact Hs.
      + intros ->. apply Hhd. reflexivity.
    - rewrite strip_bom_eq. cbn [bom app]. cbn [N.eqb Pos.eqb andb].
      apply utf8_decode_encode. exact Hs. }
  rewrite E. reflexivity.
Qed.

Lemma utf8_text_decoded_back_witness :
  map Byte.to_N [Byte.xef; Byte.xbb; Byte.xbf; Byte.xc3; Byte.xa9; Byte.x31]
  = bom ++ utf8_encode [233%N; 49%N]
  /\ decode_loop encodings
       [Byte.xef; Byte.xbb; Byte.xbf; Byte.xc3; Byte.xa9; Byte.x31] None
     = Some [233%N; 49%N].
Proof.
  assert (H : map Byte.to_N
                [Byte.xef; Byte.xbb; Byte.xbf; Byte.xc3; Byte.xa9; Byte.x31]
              = bom ++ utf8_encode [233%N; 49%N]) by reflexivity.
  split; [exact H|].
  apply utf8_text_decoded_back; [reflexivity|right; exact H].
Defined.

(** ** The export file name *)

Lemma insert_unique_in (x y : str) (l : list str) :
  In y (insert_unique x l) <-> y = x \/ In y l.
Proof.
  induction l as [|z l IH]; cbn [insert_unique].
  - cbn. intuition.
  - destruct (str_eqb x z) eqn:E.
    + apply str_eqb_eq in E. subst z. cbn. intuition.
    + destruct (str_ltb x z).
      * cbn. intuition.
      * cbn [In]. rewrite IH. intuition.
Qed.

Lemma sorted_set_in (y : str) (l : list str) : In y (sorted_set l) <-> In y l.
Proof.
  unfold sorted_set. induction l as [|x l IH]; cbn [fold_right]; [reflexivity|].
  rewrite insert_unique_in, IH. cbn. intuition.
Qed.

Lemma sorted_set_all_equal (b : str) (l : list str) :
  l <> [] -> Forall (eq b) l -> sorted_set l = [b].
Proof.
  unfold sorted_set. induction l as [|x l IH]; [contradiction|].
  intros _ H. inversion H as [|? ? Hx Hl]; subst. cbn [fold_right].
  destruct l as [|y l].
  - reflexivity.
  - rewrite IH by (try discriminate; exact Hl). cbn [insert_unique].
    rewrite str_eqb_refl. reflexivity.
Qed.

(** X17: the export name is [shortage_report_<DOC>_<DATE>.xlsx]; [<DOC>]
    is the badge shared by all documents and the literal MULTI as soon as two
    badges differ; [<DATE>] is the operator's date with the toggle off, and
    with the toggle on the date shared by all documents. *)
Theorem export_filename_parts (env : Env) (use_header_date : bool)
  (manual : date) (st : flow) :
  doc_badges st <> [] -> meta_dates st <> [] ->
  exists doc_part date_part,
    export_filename env use_header_date manual st
    = Ok (lit "shortage_report_" ++ doc_part ++ lit "_" ++ date_part
          ++ lit ".xlsx")
    /\ (forall b, Forall (eq b) (doc_badges st) -> doc_part = b)
    /\ ((exists x y, In x (doc_badges st) /\ In y (doc_badges st) /\ x <> y) ->
        doc_part = lit "MULTI")
    /\ (use_header_date = false ->
        date_part = strftime_iso (pads_year env) manual)
    /\ (use_header_date = true ->
        forall d, Forall (eq d) (meta_dates st) -> date_part = d).
Proof.
  intros Hb Hd. unfold export_filename.
  set (unique_docs := sorted_set (doc_badges st)).
  assert (Hdoc : exists doc_part,
             (if len unique_docs =? 1 then getitem unique_docs 0
              else Ok (lit "MULTI")) = Ok doc_part
             /\ (forall b, Forall (eq b) (doc_badges st) -> doc_part = b)
             /\ ((exists x y, In x (doc_badges st) /\ In y (doc_badges st)
                              /\ x <> y) -> doc_part = lit "MULTI")).
  { destruct (len unique_docs =? 1) eqn:L.
    - apply Z.eqb_eq in L. destruct unique_docs as [|u [|u2 us]] eqn:E;
        try (unfold len in L; cbn in L; lia).
      exists u. split; [reflexivity|]. split.
      + intros b Hall. pose proof (sorted_set_all_equal b _ Hb Hall) as H.
        fold unique_docs in H. rewrite E in H. injection H as ->. reflexivity.
      + intros [x [y [Hx [Hy Hxy]]]]. exfalso. apply Hxy.
        apply sorted_set_in in Hx, Hy. fold unique_docs in Hx, Hy.
        rewrite E in Hx, Hy. destruct Hx as [<-|[]]. destruct Hy as [<-|[]].
        reflexivity.
    - exists (lit "MULTI"). split; [reflexivity|]. split; [|reflexivity].
      intros b Hall. exfalso. pose proof (sorted_set_all_equal b _ Hb Hall) as H.
      fold unique_docs in H. rewrite H in L. discriminate L. }
  destruct Hdoc as [doc_part [H1 [H2 H3]]]. rewrite H1. cbn [bind].
  eexists. eexists. split; [reflexivity|]. split; [exact H2|]. split; [exact H3|].
  split.
  - intros ->. reflexivity.
  - intros -> d Hall. cbn [negb].
    replace (truthy (meta_dates st)) with true
      by (destruct (meta_dates st); [contradiction|reflexivity]).
    rewrite (sorted_set_all_equal d _ Hd Hall). reflexivity.
Qed.

Lemma export_filename_parts_witness :
  export_filename sample_env true sample_date
    (mkFlow None [] [lit "AB_12-34"; lit "AB_12-34"] [lit "2024-03-05"; lit "2024-03-05"])
  = Ok (lit "shortage_report_AB_12-34_2024-03-05.xlsx").
Proof.
  destruct (export_filename_parts sample_env true sample_date
              (mkFlow None [] [lit "AB_12-34"; lit "AB_12-34"]
                      [lit "2024-03-05"; lit "2024-03-05"]))
    as [doc_part [date_part [H [H1 [_ [_ H4]]]]]]; try discriminate.
  rewrite H. cbn [doc_badges meta_dates] in H1, H4.
  rewrite (H1 (lit "AB_12-34")) by (repeat constructor).
  rewrite (H4 eq_refl (lit "2024-03-05")) by (repeat constructor).
  reflexivity.
Defined.


Lemma process_file_meta (env : Env) (use_header_date : bool) (manual : date)
  (st : flow) (f : upload) :
  exists st',
    process_file env use_header_date manual st f = Ok st'
    /\ doc_badges st' = doc_badges st ++ [badge_of env use_header_date manual f]
    /\ meta_dates st'
       = meta_dates st
         ++ [meta_date_rcvd (file_meta env use_header_date manual f)].
Proof.
  unfold process_file.
  destruct (decode_loop_some (file_bytes f) (txt_var st)) as [t [Ht Ht0]].
  rewrite Ht.
  destruct (parse_one_text_frame env t
              (if use_header_date then None
               else Some (strftime_iso (pads_year env) manual)))
    as [df [meta [Hp _]]].
  rewrite Hp. cbn [bind]. eexists. split; [reflexivity|].
  cbn [doc_badges meta_dates].
  assert (E : file_meta env use_header_date manual f = meta).
  { unfold file_meta, file_text, override_of. rewrite Ht0, Hp. reflexivity. }
  unfold badge_of. rewrite E. split; reflexivity.
Qed.

Lemma process_files_meta (env : Env) (use_header_date : bool) (manual : date)
  (files : list upload) :
  forall st,
    exists st',
      process_files env use_header_date manual st files = Ok st'
      /\ doc_badges st'
         = doc_badges st ++ map (badge_of env use_header_date manual) files
      /\ meta_dates st'
         = meta_dates st
           ++ map (fun f => meta_date_rcvd (file_meta env use_header_date manual f))
                  files.
Proof.
  induction files as [|f files IH]; intros st; cbn [process_files map].
  - exists st. rewrite !app_nil_r. repeat split.
  - destruct (process_file_meta env use_header_date manual st f)
      as [st1 [H1 [H2 H3]]].
    rewrite H1. cbn [bind]. destruct (IH st1) as [st' [H4 [H5 H6]]].
    exists st'. split; [exact H4|].
    rewrite H5, H6, H2, H3, <- !app_assoc. split; reflexivity.
Qed.

(** X18: after the loop over the uploads of a non-empty batch, which does
    not raise, the lists of badges and of dates hold one entry per upload in
    upload order (the document's identifier, or the file name when the
    document has none; the document's date), and the name computed from
    these lists is produced without raising; for a single upload it is
    [shortage_report_<badge>_<date>.xlsx] with its own badge and date. *)
Theorem batch_filename (env : Env) (use_header_date : bool) (manual : date)
  (f : upload) (files : list upload) :
  exists st name,
    process_files env use_header_date manual (mkFlow None [] [] []) (f :: files)
    = Ok st
    /\ doc_badges st = map (badge_of env use_header_date manual) (f :: files)
    /\ meta_dates st
       = map (fun x => meta_date_rcvd (file_meta env use_header_date manual x))
             (f :: files)
    /\ export_filename env use_header_date manual st = Ok name
    /\ (files = [] ->
        name = lit "shortage_report_" ++ badge_of env use_header_date manual f
               ++ lit "_"
               ++ meta_date_rcvd (file_meta env use_header_date manual f)
               ++ lit ".xlsx").
Proof.
  destruct (process_files_meta env use_header_date manual (f :: files)
              (mkFlow None [] [] [])) as [st [H1 [H2 H3]]].
  cbn [doc_badges meta_dates app] in H2, H3.
  assert (Hone : files = [] ->
                 export_filename env use_header_date manual st
                 = Ok (lit "shortage_report_" ++ badge_of env use_header_date manual f
                       ++ lit "_"
                       ++ meta_date_rcvd (file_meta env use_header_date manual f)
                       ++ lit ".xlsx")).
  { intros ->. unfold export_filename. rewrite H2, H3.
    cbn [map sorted_set fold_right insert_unique truthy join].
    change (len [badge_of env use_header_date manual f] =? 1) with true.
    cbv iota. change (getitem [badge_of env use_header_date manual f] 0)
      with (Ok (badge_of env use_header_date manual f)).
    cbn [bind]. destruct use_header_date; cbn [negb]; [reflexivity|].
    unfold file_meta, override_of.
    destruct (parse_one_text_spec env (file_text f)
                (Some (strftime_iso (pads_year env) manual)))
      as [d [es [Hd [_ [_ [_ Hp]]]]]].
    rewrite Hp. cbn [meta_date_rcvd].
    unfold choose_date in Hd. rewrite strftime_iso_truthy in Hd.
    injection Hd as <-. reflexivity. }
  destruct (export_filename env use_header_date manual st) as [name|e|] eqn:E.
  - exists st, name. split; [exact H1|]. split; [exact H2|]. split; [exact H3|].
    split; [exact E|]. intros Hf. specialize (Hone Hf).
    injection Hone as Hn. exact Hn.
  - exfalso. revert E. unfold export_filename. rewrite H2.
    destruct (len _ =? 1) eqn:L; [|discriminate].
    apply Z.eqb_eq in L.
    destruct (sorted_set _) as [|u l]; [unfold len in L; cbn in L; lia|].
    discriminate.
  - exfalso. revert E. unfold export_filename. rewrite H2.
    destruct (len _ =? 1) eqn:L; [|discriminate].
    apply Z.eqb_eq in L.
    destruct (sorted_set _) as [|u l]; [unfold len in L; cbn in L; lia|].
    discriminate.
Qed.
